(* ===== verification/_CoqProject ===== *)
-Q . S2P
Prelude.v
JsString.v
Calendar.v
Timestamp.v
Random.v
Params.v
Terminal.v
Density.v
Git.v
History.v
Machine.v
RepoRuns.v
