(* ===== verification/Prelude.v ===== *)
(** * Git history generator: verification development (root file)

    The repository is one Node.js script, [src/index.js], that fabricates a
    year of backdated commits.  [generateHistory] (lines 29-127) asks for a
    target year, a density level and weekdays to skip (three [readline]
    prompts), then walks every day of the year with [moment], draws a number
    of commits per day with [getRandomInt] (lines 8-12), and for each commit
    draws a time of day and calls [makeCommitWithDate] (lines 14-27), which
    rewrites [./data.json] and runs [git add] and [git commit --date]
    through [simple-git]; a failed commit is logged and the loop goes on.
    Finally it pushes once and logs the outcome.

    ** Files, in dependency order

    - [Prelude] (this file): the state monad [St] (value first, as ExtLib's
      [state]) with [bind]/[ret], [zoom] to run a computation on one field
      of a larger state, [repeatM] (a counted [for] loop) and [forM_]; the
      notations [x <- m ;; k] and [m ;; k] in [gh_scope]; the hint
      databases [gh] and [gh_rw]; integer-division lemmas
      ([Zdiv_step], [Zdiv_iff], [Zceil_le_iff]) shared by the calendar and
      the sampler; [star], the runs of a step relation, with [star_inv]
      for rule induction; [preserves], an invariant of a stateful
      computation, with its combinators for [bind], [repeatM], [forM_]
      and [zoom]; sortedness of appended and constant lists.
    - [JsString]: the ECMAScript builtins the script calls: [trim],
      [toLowerCase], [split(',')], [parseInt(_, 10)] returning [Int z] or
      [NaN].  Builtins are modelled from the ECMAScript specification on
      code units below 256; [trimmed] is TrimString as a relation.
    - [Calendar]: [moment]'s civil calendar: [next_day] is [add(1,'day')],
      [weekday] is [day()], [is_same_or_before_day] is
      [isSameOrBefore(_, 'day')] (comparison of day numbers counted from
      1970-01-01), [traverse] is the shape of the [while] loop of lines
      81-116 with a fuel bound; [weekday_ref] is Sakamoto's formula, the
      reference [weekday] is checked against.
    - [Timestamp]: [clone().hour(h).minute(m).second(s).format()] (lines
      108-112) and a parser [parse_iso] of the printed form; the strings
      [`${targetYear}-01-01T00:00:00`] and [...-12-31T23:59:59] of lines
      75-76 ([number_to_string], [start_string], [end_string]) and
      [moment]'s ISO parse of them ([parse_iso_local]).
    - [Random]: [getRandomInt] over an explicit generator [rng] (a sequence
      of draws and a position) standing for [Math.random]'s hidden state;
      a draw [k] is the double [k / 2^52], the grid of V8's [Math.random].
    - [Params]: the three prompts (lines 41-71) over a list of answer lines,
      each paired with the clock's year ([moment().year()] is re-read on
      every attempt); [collect_params] returns the parameters, the unread
      lines and the [console.warn] warnings.
    - [Terminal]: the same prompts as the terminal sees them: a session
      is a list of events (query written by [rl.question], line typed,
      [console.warn], [rl.close()]).
    - [Density]: the [switch (commitLevel)] of lines 91-105 and the
      abstract table of the specification ([level], [level_range],
      [sample]).
    - [Git]: the version-control collaborator as the typeclass [Backend]
      with its contract [BackendLaws]; [makeCommitWithDate] is written
      against it.  [Git.Repo] is a model repository (working tree, index
      and HEAD as stdpp [gmap]s, commit refused when the index equals HEAD,
      [add] refused on a missing path, push refused when the remote is
      unreachable) that implements the interface.
    - [History]: the [world] (generator, repository, console lines) and
      [commit_time], [commit_one], [commit_loop], [process_day], [day_loop],
      [push_step], [synthesize], [generateHistory], as the script composes
      them; the per-day specification [day_spec] of the console lines.
    - [Machine]: the same loops (lines 81-116) as a small-step machine:
      a configuration is a program point ([LoopHead], [ForLoop i n],
      [LoopExit]), the cursor [currentDate] and the world; [step] has one
      rule per statement (loop exit, skip with [continue], the [switch]
      draw, one commit and [i++], the day advance).
    - [RepoRuns]: [History.synthesize] run against the model repository
      [Git.Repo.store], with the working tree unwritable or the remote
      unreachable.

    ** What the theorems show

    - Traversal ([Calendar.traverse_year]): the loop from January 1 to
      December 31 visits exactly the valid dates of the year, with
      consecutive day numbers, 365 or 366 of them; [day()] agrees with
      Sakamoto's formula on every valid date ([weekday_sakamoto]), so 0 is
      Sunday.
    - Sampling ([Random]): [getRandomInt] stays in [[ceil min, floor max]]
      and consumes one draw; the draws giving each value form an interval
      ([scale_preimage]) of [2^52 / n] or one more draws ([scale_uniform]).
    - Density ([Density]): the switch refines the abstract sampler on the
      accepted levels; its default branch (one commit, no draw) is taken
      exactly on the strings the level prompt rejects.
    - Prompts ([Params]): the year loop returns the first valid answer and
      terminates when one exists; the parameters satisfy the invariant of
      RunParameters; the skip-day parse is characterised exactly; a year
      answer is read up to its first non-digit
      ([year_digit_prefix_accepted]) and a level answer with surrounding
      white space is always rejected ([level_untrimmed_rejected]).
    - Commits ([Git], [History]): every attempt prints [Attempting] and one
      outcome, never aborting; [synthesize_spec]/[generateHistory_correct]
      describe the whole run (banner, one [day_spec] per day of the year,
      end banner, one push, final line) and show the history grows by
      exactly the commits reported; [synthesize_counts] bounds the attempts
      by the level's range times the non-skipped days.
    - Round trips: [split] is the unique separator-free decomposition
      whose join is the input ([JsString.split_on_spec]),
      [format]/[parse_iso] ([Timestamp.parse_format]); the start and end
      strings of lines 75-76 parse to the loop bounds [jan1]/[dec31] for
      four-digit years ([Timestamp.start_end_strings]); every commit date
      string parses back to the current day ([History.commit_time_on_day]);
      [trim] meets TrimString ([JsString.trim_spec]).
    - Terminal ([Terminal]): the queries come in the code's order, year
      then level then skip days, one per attempt, with [rl.close()] last
      ([session_prompt_order]); when the input runs out, the last query is
      left unanswered and [rl.close()] never runs ([session_exhausted]).
    - Order ([History.synthesize_chronological]): the commits a run adds
      read back as days of the target year in non-decreasing order.
    - Failure policies ([RepoRuns]): with the marker file unwritable every
      attempt fails and is logged, every day is still processed and the
      history is unchanged ([synthesize_disk_failure]); the one push either
      transmits every local commit or is logged as failed with the remote
      untouched, and the final line is printed in both cases
      ([synthesize_push_outcome]).
    - Operational semantics ([Machine]): every run from a valid cursor is
      finite ([machine_terminates], an [Acc] proof by a days-left and
      loop-counter argument), and an invariant of every reachable
      configuration holds by rule induction ([reachable_inv]).
    - Findings: a repeated time of day makes a commit fail with "nothing to
      commit" ([Git.Repo.same_timestamp_commit_fails]), so a day can have
      fewer commits than its level promises; [parseInt] accepts trailing
      garbage in the year and skip-day answers; the level answer is not
      trimmed.  The model repository fails such a commit with
      [CommitError], the contract of the specification; [simple-git]
      itself rejects a git command only when it exits non-zero with output
      on stderr, and git prints "nothing to commit" on stdout, so the real
      script may log such a commit as successful.

    ** Bounds and fuel

    The day loop runs with fuel [History.year_fuel] = 366: the traversal
    theorems hold for any fuel of at least 366, the number of days of a
    leap year, and show the loop leaves by its own condition after
    [year_length y] iterations; the machine of [Machine] has no fuel.
    [Timestamp.number_to_string] prints with [log2 z + 1] steps of fuel, at
    least the number of decimal digits of [z].  Integers are unbounded [Z]: the values the
    script handles (years, counts up to 10, times) are far below 2^53, the
    limit where JS numbers lose precision.

    ** Not modelled

    [readline] itself (line editing, echo, the end-of-input event; the
    session is modelled as its events), the rounding of the
    double product in [getRandomInt], daylight-saving transitions (a fixed
    UTC offset, the section variable [utc_offset]), [moment]'s setters on
    out-of-range arguments (never passed), git internals beyond the model
    repository, the committer date (only the author date is set by
    [--date]), and the top-level [.catch(console.error)], never reached
    since no modelled operation raises (the prompts never reject, commit
    errors are caught in [makeCommitWithDate] and the push reports through
    its callback).  [moment]'s fallback to [Date] for strings outside its
    ISO forms (a target year outside 1000-9999, which the year check and
    the clock never produce before the year 10000) is not modelled.

    ** Further work

    Relate [Calendar.day_number] to Unix time; model the author and
    committer dates of a commit; extend the machine to the prompts and the
    push, and relate it step by step to [History.day_loop]. *)

From Stdlib Require Import ZArith List String Ascii Bool Lia Sorted.
Import ListNotations.

Declare Scope gh_scope.
Delimit Scope gh_scope with gh.

Create HintDb gh discriminated.
Create Rewrite HintDb gh_rw.

(** ** A state monad

    [St S A] threads the explicit state [S] and returns the value first,
    as ExtLib's [state] does. *)

Definition St (S A : Type) : Type := S -> A * S.

Definition ret {S A} (a : A) : St S A := fun s => (a, s).

Definition bind {S A B} (m : St S A) (k : A -> St S B) : St S B :=
  fun s => let (a, s') := m s in k a s'.

Definition get {S} : St S S := fun s => (s, s).
Definition put {S} (s : S) : St S unit := fun _ => (tt, s).
Definition modify {S} (f : S -> S) : St S unit := fun s => (tt, f s).

Notation "x <- m ;; k" := (bind m (fun x => k))
  (at level 100, m at next level, k at level 200, right associativity) : gh_scope.
Notation "m ;; k" := (bind m (fun _ => k))
  (at level 100, k at level 200, right associativity) : gh_scope.

Open Scope gh_scope.

(** Run a computation on one field of a larger state: the caller supplies
    the projection and the update of that field. *)
Definition zoom {S T A} (proj : S -> T) (upd : T -> S -> S) (m : St T A) : St S A :=
  fun s => let (a, t') := m (proj s) in (a, upd t' s).

(** [for (i = 0; i < n; i++) body] *)
Fixpoint repeatM {S} (n : nat) (body : St S unit) : St S unit :=
  match n with
  | O => ret tt
  | Datatypes.S n' => body ;; repeatM n' body
  end.

(** [for (x of l) f(x)] *)
Fixpoint forM_ {S A} (l : list A) (f : A -> St S unit) : St S unit :=
  match l with
  | [] => ret tt
  | x :: l' => f x ;; forM_ l' f
  end.

Lemma bind_ret_l {S A B} (a : A) (k : A -> St S B) s :
  bind (ret a) k s = k a s.
Proof. reflexivity. Qed.

Lemma bind_ret_r {S A} (m : St S A) s : bind m ret s = m s.
Proof. unfold bind, ret. destruct (m s); reflexivity. Qed.

Lemma bind_assoc {S A B C} (m : St S A) (k : A -> St S B) (h : B -> St S C) s :
  bind (bind m k) h s = bind m (fun a => bind (k a) h) s.
Proof. unfold bind. destruct (m s); reflexivity. Qed.

Lemma bind_apply {S A B} (m : St S A) (k : A -> St S B) s :
  bind m k s = k (fst (m s)) (snd (m s)).
Proof. unfold bind. destruct (m s); reflexivity. Qed.

Lemma bind_const {S A B} (m : St S A) (k : St S B) s :
  bind m (fun _ => k) s = k (snd (m s)).
Proof. unfold bind. destruct (m s); reflexivity. Qed.

Lemma forM_app {S A} (l1 l2 : list A) (f : A -> St S unit) s :
  forM_ (l1 ++ l2) f s = bind (forM_ l1 f) (fun _ => forM_ l2 f) s.
Proof.
  revert s. induction l1 as [|x l1 IH]; intros s; simpl.
  - reflexivity.
  - unfold bind in *. destruct (f x s) as [[] s']. rewrite IH.
    reflexivity.
Qed.

#[export] Hint Rewrite @bind_ret_l @bind_assoc : gh_rw.

(** ** Generic lemmas shared by the components *)

Open Scope Z_scope.

Lemma existsb_Zeqb_In (x : Z) (l : list Z) :
  existsb (Z.eqb x) l = true <-> In x l.
Proof.
  induction l as [|y l IH]; simpl; [split; [discriminate | contradiction]|].
  rewrite orb_true_iff, IH, Z.eqb_eq. split; intros [H|H]; auto.
Qed.

(** [a / k - (a - 1) / k] is one exactly on the multiples of [k]: the
    step of the leap-year counting formula. *)
Lemma Zdiv_step (a k : Z) :
  0 < k -> a / k - (a - 1) / k = if a mod k =? 0 then 1 else 0.
Proof.
  intros Hk.
  pose proof (Z.div_mod a k ltac:(lia)) as Ea.
  pose proof (Z.mod_pos_bound a k Hk) as Ba.
  destruct (Z.eqb_spec (a mod k) 0) as [E|E].
  - assert (Hd : (a - 1) / k = a / k - 1).
    { symmetry; apply Z.div_unique with (r := k - 1); lia. }
    lia.
  - assert (Hd : (a - 1) / k = a / k).
    { symmetry; apply Z.div_unique with (r := a mod k - 1); lia. }
    lia.
Qed.

Lemma Zmod_mul_zero (a k m : Z) :
  0 < k -> 0 < m -> a mod (k * m) = 0 -> a mod k = 0.
Proof.
  intros Hk Hm H. apply Z.mod_divide in H; [|lia].
  apply Z.mod_divide; [lia|]. eapply Z.divide_trans; [|exact H].
  exists m. ring.
Qed.

Lemma Zdiv_iff (a b q : Z) : 0 < b -> (a / b = q <-> b * q <= a < b * q + b).
Proof.
  intros Hb. split.
  - intros <-. pose proof (Z.div_mod a b ltac:(lia)).
    pose proof (Z.mod_pos_bound a b Hb). lia.
  - intros H. symmetry. apply Z.div_unique with (r := a - b * q); lia.
Qed.

(** [(a + n - 1) / n] is the ceiling of [a / n]. *)
Lemma Zceil_le_iff (a n k : Z) : 0 < n -> ((a + n - 1) / n <= k <-> a <= k * n).
Proof.
  intros Hn. pose proof (Z.div_mod (a + n - 1) n ltac:(lia)).
  pose proof (Z.mod_pos_bound (a + n - 1) n Hn).
  split; intros H1; nia.
Qed.

Lemma Zlt_ceil_iff (a n k : Z) : 0 < n -> (k < (a + n - 1) / n <-> k * n < a).
Proof.
  intros Hn. pose proof (Zceil_le_iff a n k Hn). split; intros H1.
  - apply Z.nle_gt. intros C. apply H in C. lia.
  - apply Z.nle_gt. intros C. apply H in C. lia.
Qed.

Ltac gh_simpl := autorewrite with gh_rw in *; simpl in *.

(** ** Runs of a step relation

    [star step a b]: [b] is reached from [a] in zero or more steps, as in
    Leroy's [Sequences] library. *)

Section Star.
Context {A : Type} (step : A -> A -> Prop).

Inductive star : A -> A -> Prop :=
| star_refl a : star a a
| star_step a b c : step a b -> star b c -> star a c.

Lemma star_one a b : step a b -> star a b.
Proof. intros H. eapply star_step; [exact H | apply star_refl]. Qed.

Lemma star_trans a b c : star a b -> star b c -> star a c.
Proof. induction 1; eauto using star_step. Qed.

(** An invariant preserved by every step holds on every reached state. *)
Lemma star_inv (P : A -> Prop) a b :
  (forall x y, P x -> step x y -> P y) -> P a -> star a b -> P b.
Proof. intros Hs Ha H. induction H; eauto. Qed.

End Star.

#[export] Hint Constructors star : gh.
#[export] Hint Resolve star_one star_trans : gh.

(** ** Invariants of stateful computations

    [preserves P m]: running [m] from a state satisfying [P] ends in a
    state satisfying [P].  The combinators below carry such invariants
    through the loops of the script. *)

Definition preserves {S A} (P : S -> Prop) (m : St S A) : Prop :=
  forall s, P s -> P (snd (m s)).

Section Preserves.
Context {S : Type} (P : S -> Prop).

Lemma preserves_ret {A} (a : A) : preserves P (ret a).
Proof. intros s H. exact H. Qed.

Lemma preserves_bind {A B} (m : St S A) (k : A -> St S B) :
  preserves P m -> (forall a, preserves P (k a)) -> preserves P (bind m k).
Proof. intros Hm Hk s H. rewrite bind_apply. apply Hk, Hm, H. Qed.

Lemma preserves_repeatM n (body : St S unit) :
  preserves P body -> preserves P (repeatM n body).
Proof.
  intros Hb. induction n as [|n IH]; simpl; [apply preserves_ret|].
  apply preserves_bind; auto.
Qed.

Lemma preserves_forM_ {A} (l : list A) (f : A -> St S unit) :
  (forall x, preserves P (f x)) -> preserves P (forM_ l f).
Proof.
  intros Hf. induction l as [|x l IH]; simpl; [apply preserves_ret|].
  apply preserves_bind; auto.
Qed.

Lemma preserves_zoom {T A} (proj : S -> T) (upd : T -> S -> S) (m : St T A) :
  (forall s t, P s -> P (upd t s)) -> preserves P (zoom proj upd m).
Proof. intros Hu s H. unfold zoom. destruct (m (proj s)). apply Hu, H. Qed.

End Preserves.

#[export] Hint Resolve preserves_ret preserves_bind preserves_repeatM preserves_forM_ : gh.

(** ** Sorted lists *)

Section Sorting.
Context {A : Type} (R : A -> A -> Prop).

Lemma StronglySorted_app_intro (xs ys : list A) :
  StronglySorted R xs -> StronglySorted R ys ->
  (forall x y, In x xs -> In y ys -> R x y) -> StronglySorted R (xs ++ ys).
Proof.
  induction 1 as [|x xs Hs IH Hx]; intros Hys Hxy; simpl; [exact Hys|].
  constructor; [apply IH; auto using in_cons|].
  apply Forall_app. split; [exact Hx|].
  apply Forall_forall. intros y Hy. apply Hxy; [left; reflexivity | exact Hy].
Qed.

(** A list of copies of one element is sorted by a reflexive relation. *)
Lemma StronglySorted_const {B} (d : A) (l : list B) :
  R d d -> StronglySorted R (map (fun _ => d) l).
Proof.
  intros Hd. induction l as [|x l IH]; simpl; constructor; [exact IH|].
  apply Forall_forall. intros y Hy. apply in_map_iff in Hy as [? [<- _]]. exact Hd.
Qed.

(** [map f (seq a n)] is sorted when [f] is increasing. *)
Lemma StronglySorted_map_seq (f : nat -> A) a n :
  (forall i j, (i < j)%nat -> R (f i) (f j)) -> StronglySorted R (map f (seq a n)).
Proof.
  intros Hf. revert a. induction n as [|n IH]; intros a; simpl; constructor; [apply IH|].
  apply Forall_forall. intros y Hy. apply in_map_iff in Hy as [j [<- Hj]].
  apply in_seq in Hj. apply Hf. lia.
Qed.

End Sorting.
