(* ===== verification/JsString.v ===== *)
(** * ECMAScript string and number builtins used by [src/index.js]

    [String.prototype.trim], [String.prototype.toLowerCase],
    [String.prototype.split(',')] and [parseInt(_, 10)] with its [NaN]
    result.  They are builtins of the language, not code of the
    repository, and are modelled from the ECMAScript specification.
    A JS string is a sequence of UTF-16 code units; the model keeps the
    code units below 256 (Latin-1, one [ascii] each), which is all the
    whitespace and case tables below need to distinguish. *)

From Stdlib Require Import ZArith List String Ascii Bool Lia.
From S2P Require Import Prelude.
Import ListNotations.

Module JsString.

(** A JS number as the script sees one: an integer or [NaN]. *)
Inductive number : Type :=
| Int (z : Z)
| NaN.

(** [isNaN(x)] *)
Definition isNaN (n : number) : bool :=
  match n with NaN => true | Int _ => false end.

(** ECMAScript WhiteSpace and LineTerminator code units below 256:
    TAB, LF, VT, FF, CR, SPACE and NO-BREAK SPACE. *)
Definition is_ws (c : ascii) : bool :=
  let n := nat_of_ascii c in
  ((9 <=? n) && (n <=? 13))%nat || (n =? 32)%nat || (n =? 160)%nat.

Fixpoint drop_ws (l : list ascii) : list ascii :=
  match l with
  | [] => []
  | c :: l' => if is_ws c then drop_ws l' else l
  end.

(** [s.trim()]: TrimString(s, start+end). *)
Definition trim (s : string) : string :=
  string_of_list_ascii (rev (drop_ws (rev (drop_ws (list_ascii_of_string s))))).

(** [s.toLowerCase()] on the Latin-1 code units: A-Z and the Latin-1
    capitals U+00C0..U+00DE except U+00D7 map 32 code points up. *)
Definition lower (c : ascii) : ascii :=
  let n := nat_of_ascii c in
  if ((65 <=? n) && (n <=? 90))%nat
     || ((192 <=? n) && (n <=? 222) && negb (n =? 215))%nat
  then ascii_of_nat (n + 32) else c.

Definition toLowerCase (s : string) : string :=
  string_of_list_ascii (map lower (list_ascii_of_string s)).

(** [s.split(sep)] for a one-code-unit separator: the pieces between the
    occurrences of [sep]; the empty string gives one empty piece. *)
Fixpoint split_on (sep : ascii) (l : list ascii) : list (list ascii) :=
  match l with
  | [] => [[]]
  | c :: l' =>
      let parts := split_on sep l' in
      if ascii_dec c sep then [] :: parts
      else match parts with
           | p :: ps => (c :: p) :: ps
           | [] => [[c]]
           end
  end.

Definition split (sep : ascii) (s : string) : list string :=
  map string_of_list_ascii (split_on sep (list_ascii_of_string s)).

(** Decimal digits. *)
Definition is_digit (c : ascii) : bool :=
  let n := nat_of_ascii c in ((48 <=? n) && (n <=? 57))%nat.

Definition digit_val (c : ascii) : Z := Z.of_nat (nat_of_ascii c) - 48.

Fixpoint digits_prefix (l : list ascii) : list Z :=
  match l with
  | c :: l' => if is_digit c then digit_val c :: digits_prefix l' else []
  | [] => []
  end.

Definition digits_value (ds : list Z) : Z :=
  fold_left (fun acc d => acc * 10 + d) ds 0%Z.

(** [parseInt(s, 10)]: skip leading whitespace, read an optional sign,
    then the longest prefix of decimal digits; [NaN] when that prefix is
    empty.  Trailing characters after the digits are ignored.  The value
    is exact (the builtin rounds beyond 2^53, far above any value the
    script accepts); [-0] is represented as [0], which every comparison
    and [includes] of the script treats alike. *)
Definition parseInt (s : string) : number :=
  let l := drop_ws (list_ascii_of_string s) in
  let '(sign, rest) :=
    match l with
    | c :: r => if ascii_dec c "-"%char then ((-1)%Z, r)
                else if ascii_dec c "+"%char then (1%Z, r)
                else (1%Z, l)
    | [] => (1%Z, l)
    end in
  match digits_prefix rest with
  | [] => NaN
  | ds => Int (sign * digits_value ds)
  end.

(** The ECMAScript TrimString(s, start+end) as a relation, the reference
    [trim] is checked against: [t] is [l] without the white space at its
    start and at its end, so [t] neither starts nor ends with white space. *)
Definition starts_non_ws (l : list ascii) : bool :=
  match l with [] => true | c :: _ => negb (is_ws c) end.

Definition trimmed (l t : list ascii) : Prop :=
  exists a b, l = a ++ t ++ b /\ forallb is_ws a = true /\ forallb is_ws b = true /\
    starts_non_ws t = true /\ starts_non_ws (rev t) = true.

(** ** Lemmas *)

(** [Array.prototype.join(sep)] on pieces, the inverse of [split_on]. *)
Fixpoint join (sep : ascii) (parts : list (list ascii)) : list ascii :=
  match parts with
  | [] => []
  | [p] => p
  | p :: ps => p ++ sep :: join sep ps
  end.

Lemma split_on_not_nil sep l : split_on sep l <> [].
Proof.
  induction l as [|c l IH]; simpl; [discriminate|].
  destruct (ascii_dec c sep); [discriminate|].
  destruct (split_on sep l); [contradiction | discriminate].
Qed.

Lemma join_cons_head sep c p ps :
  join sep ((c :: p) :: ps) = c :: join sep (p :: ps).
Proof. destruct ps; reflexivity. Qed.

(** Splitting then joining with the same separator gives the input back. *)
Lemma split_on_join sep l : join sep (split_on sep l) = l.
Proof.
  induction l as [|c l IH]; [reflexivity|]. simpl.
  destruct (ascii_dec c sep) as [->|Hne].
  - destruct (split_on sep l) as [|p ps] eqn:E.
    + exfalso. exact (split_on_not_nil sep l E).
    + simpl in IH |- *. rewrite IH. reflexivity.
  - destruct (split_on sep l) as [|p ps] eqn:E.
    + exfalso. exact (split_on_not_nil sep l E).
    + rewrite join_cons_head, IH. reflexivity.
Qed.

Lemma split_on_pieces sep l p : In p (split_on sep l) -> ~ In sep p.
Proof.
  revert p. induction l as [|c l IH]; simpl; intros p Hp.
  - destruct Hp as [<-|[]]; simpl; tauto.
  - destruct (ascii_dec c sep) as [->|Hne].
    + destruct Hp as [<-|Hp]; [simpl; tauto | exact (IH p Hp)].
    + destruct (split_on sep l) as [|q qs] eqn:E; [destruct Hp as [<-|[]]; simpl; intuition|].
      destruct Hp as [<-|Hp].
      * simpl. intros [Heq|Hin]; [congruence|]. exact (IH q (or_introl eq_refl) Hin).
      * exact (IH p (or_intror Hp)).
Qed.

Lemma split_on_nosep sep p : ~ In sep p -> split_on sep p = [p].
Proof.
  induction p as [|c p IH]; simpl; intros Hp; [reflexivity|].
  destruct (ascii_dec c sep) as [->|Hne]; [exfalso; apply Hp; left; reflexivity|].
  rewrite IH by tauto. reflexivity.
Qed.

Lemma split_on_app_sep sep p r :
  ~ In sep p -> split_on sep (p ++ sep :: r) = p :: split_on sep r.
Proof.
  induction p as [|c p IH]; simpl; intros Hp.
  - destruct (ascii_dec sep sep); [reflexivity | contradiction].
  - destruct (ascii_dec c sep) as [->|Hne]; [exfalso; apply Hp; left; reflexivity|].
    rewrite IH by tauto. reflexivity.
Qed.

(** Joining pieces free of the separator and splitting again gives the
    pieces back. *)
Lemma split_on_join_inv sep ps :
  ps <> [] -> Forall (fun p => ~ In sep p) ps -> split_on sep (join sep ps) = ps.
Proof.
  induction ps as [|p ps IH]; intros Hne Hf; [contradiction|].
  apply Forall_cons_iff in Hf as [Hp Hf].
  destruct ps as [|q qs]; [now apply split_on_nosep|].
  change (join sep (p :: q :: qs)) with (p ++ sep :: join sep (q :: qs)).
  rewrite split_on_app_sep by exact Hp. f_equal. apply IH; [discriminate | exact Hf].
Qed.

(** C17: [split] is characterised by its pieces: [split_on sep l] is the
    only non-empty list of pieces that contain no separator and whose join
    is [l], as String.prototype.split specifies for a one-unit separator. *)
Theorem split_on_spec sep l ps :
  split_on sep l = ps <->
  ps <> [] /\ join sep ps = l /\ Forall (fun p => ~ In sep p) ps.
Proof.
  split.
  - intros <-. split; [apply split_on_not_nil|]. split; [apply split_on_join|].
    apply Forall_forall. intros p. apply split_on_pieces.
  - intros (Hne & <- & Hf). now apply split_on_join_inv.
Qed.

Lemma drop_ws_app w l :
  forallb is_ws w = true -> drop_ws (w ++ l) = drop_ws l.
Proof.
  induction w as [|c w IH]; simpl; [reflexivity|].
  intros H. apply andb_true_iff in H as [Hc Hw]. rewrite Hc. exact (IH Hw).
Qed.

Lemma drop_ws_app_gen x y :
  drop_ws (x ++ y) = match drop_ws x with [] => drop_ws y | _ => drop_ws x ++ y end.
Proof.
  induction x as [|c x IH]; simpl; [reflexivity|].
  destruct (is_ws c); [exact IH | reflexivity].
Qed.

Lemma drop_ws_head l :
  match drop_ws l with [] => True | c :: _ => is_ws c = false end.
Proof.
  induction l as [|c l IH]; simpl; [exact I|].
  destruct (is_ws c) eqn:E; [exact IH | exact E].
Qed.

Lemma drop_ws_all w : forallb is_ws w = true -> drop_ws w = [].
Proof. intros H. rewrite <- (app_nil_r w), drop_ws_app by exact H. reflexivity. Qed.

Lemma forallb_rev {A} (f : A -> bool) l : forallb f (rev l) = forallb f l.
Proof.
  induction l as [|x l IH]; simpl; [reflexivity|].
  rewrite forallb_app, IH. simpl. now rewrite andb_true_r, andb_comm.
Qed.

Lemma drop_ws_split l : exists a, l = a ++ drop_ws l /\ forallb is_ws a = true.
Proof.
  induction l as [|c l [a [Ha Wa]]]; simpl; [exists []; auto|].
  destruct (is_ws c) eqn:E.
  - exists (c :: a). simpl. rewrite E, Wa. split; [congruence|reflexivity].
  - exists []. auto.
Qed.

Lemma drop_ws_non_ws r : starts_non_ws r = true -> drop_ws r = r.
Proof. destruct r as [|c r]; simpl; [reflexivity|]. intros H. now rewrite negb_true_iff in H; rewrite H. Qed.

Lemma starts_non_ws_drop l : starts_non_ws (drop_ws l) = true.
Proof.
  pose proof (drop_ws_head l) as H. destruct (drop_ws l); simpl; [reflexivity|]. now rewrite H.
Qed.

(** The list form of [trim] satisfies the reference. *)
Lemma trim_list_trimmed l : trimmed l (rev (drop_ws (rev (drop_ws l)))).
Proof.
  destruct (drop_ws_split l) as [a [Ha Wa]].
  destruct (drop_ws_split (rev (drop_ws l))) as [b [Hb Wb]].
  set (t := rev (drop_ws (rev (drop_ws l)))).
  assert (Hm : drop_ws l = t ++ rev b).
  { unfold t. rewrite <- rev_app_distr, <- Hb. symmetry. apply rev_involutive. }
  exists a, (rev b). split; [rewrite <- Hm; exact Ha|]. split; [exact Wa|].
  split; [now rewrite forallb_rev|]. split.
  - pose proof (starts_non_ws_drop l) as S. rewrite Hm in S.
    destruct t; [reflexivity | exact S].
  - unfold t. rewrite rev_involutive. apply starts_non_ws_drop.
Qed.

Lemma trimmed_trim_list l t : trimmed l t -> rev (drop_ws (rev (drop_ws l))) = t.
Proof.
  intros (a & b & -> & Wa & Wb & S1 & S2). rewrite drop_ws_app by exact Wa.
  destruct t as [|c t].
  - simpl. rewrite (drop_ws_all b Wb). reflexivity.
  - rewrite (drop_ws_non_ws ((c :: t) ++ b) S1), rev_app_distr.
    rewrite (drop_ws_app (rev b)) by (rewrite forallb_rev; exact Wb).
    rewrite (drop_ws_non_ws _ S2). apply rev_involutive.
Qed.

Lemma drop_ws_idem l : drop_ws (drop_ws l) = drop_ws l.
Proof.
  pose proof (drop_ws_head l) as H.
  destruct (drop_ws l) as [|c r]; simpl; [reflexivity|]. now rewrite H.
Qed.

Lemma digits_prefix_app ds rest :
  forallb is_digit ds = true ->
  match rest with [] => True | c :: _ => is_digit c = false end ->
  digits_prefix (ds ++ rest) = map digit_val ds.
Proof.
  intros Hd Hr. induction ds as [|c ds IH]; simpl in *.
  - destruct rest as [|c r]; simpl; [reflexivity|]. now rewrite Hr.
  - apply andb_true_iff in Hd as [Hc Hds]. rewrite Hc, IH by exact Hds.
    reflexivity.
Qed.

Lemma digits_value_app ds d :
  digits_value (ds ++ [d]) = (digits_value ds * 10 + d)%Z.
Proof. unfold digits_value. now rewrite fold_left_app. Qed.

Lemma digit_not_ws c : is_digit c = true -> is_ws c = false.
Proof.
  unfold is_digit, is_ws. generalize (nat_of_ascii c) as n. intros n.
  destruct (Nat.leb_spec 48 n), (Nat.leb_spec n 57), (Nat.leb_spec 9 n),
    (Nat.leb_spec n 13), (Nat.eqb_spec n 32), (Nat.eqb_spec n 160);
    simpl; intros; first [reflexivity | discriminate | exfalso; lia].
Qed.

Lemma parseInt_digits_prefix w ds rest :
  forallb is_ws w = true -> forallb is_digit ds = true -> ds <> [] ->
  match rest with [] => True | c :: _ => is_digit c = false end ->
  parseInt (string_of_list_ascii (w ++ ds ++ rest))
  = Int (digits_value (map digit_val ds)).
Proof.
  intros Hw Hd Hne Hr. unfold parseInt.
  rewrite list_ascii_of_string_of_list_ascii, drop_ws_app by exact Hw.
  destruct ds as [|c ds]; [contradiction|].
  simpl in Hd. apply andb_true_iff in Hd as [Hc Hds].
  simpl. rewrite (digit_not_ws c Hc).
  destruct (ascii_dec c "-"%char) as [->|H1]; [discriminate|].
  destruct (ascii_dec c "+"%char) as [->|H2]; [discriminate|].
  change (c :: ds ++ rest) with ((c :: ds) ++ rest).
  rewrite digits_prefix_app
    by first [exact Hr | cbn [forallb]; rewrite Hc, Hds; reflexivity].
  simpl. destruct (digits_value _); reflexivity.
Qed.

(** [trim] of an answer that starts with a digit keeps the digits and
    removes only trailing white space, so what follows the digits still
    starts with a non-digit. *)
Lemma trim_digit_head ds rest :
  forallb is_digit ds = true -> ds <> [] ->
  match rest with [] => True | c :: _ => is_digit c = false end ->
  exists rest', list_ascii_of_string (trim (string_of_list_ascii (ds ++ rest))) = ds ++ rest' /\
    match rest' with [] => True | c :: _ => is_digit c = false end.
Proof.
  intros Hd Hne Hr. unfold trim. rewrite !list_ascii_of_string_of_list_ascii.
  destruct ds as [|d ds'] eqn:Eds; [contradiction|].
  assert (Hd0 : is_digit d = true) by (simpl in Hd; apply andb_true_iff in Hd; tauto).
  rewrite <- Eds in Hd |- *.
  assert (Hdrop : drop_ws (ds ++ rest) = ds ++ rest)
    by (rewrite Eds; simpl; now rewrite (digit_not_ws d Hd0)).
  rewrite Hdrop, rev_app_distr, drop_ws_app_gen.
  assert (Hrev : starts_non_ws (rev ds) = true).
  { assert (F : forallb is_digit (rev ds) = true) by (rewrite forallb_rev; exact Hd).
    destruct (rev ds) as [|e l]; [reflexivity|]. simpl in F |- *.
    apply andb_true_iff in F as [Fe _]. now rewrite (digit_not_ws e Fe). }
  destruct (drop_ws_split (rev rest)) as [a [Ha _]].
  destruct (drop_ws (rev rest)) as [|x xs] eqn:E.
  - exists []. rewrite drop_ws_non_ws by exact Hrev. rewrite rev_involutive, app_nil_r.
    split; [reflexivity | exact I].
  - exists (rev (x :: xs)). rewrite rev_app_distr, rev_involutive. split; [reflexivity|].
    assert (Hrest : rest = rev (x :: xs) ++ rev a)
      by (rewrite <- rev_app_distr, <- Ha; symmetry; apply rev_involutive).
    destruct (rev (x :: xs)) as [|r0 rs]; [exact I|]. rewrite Hrest in Hr. exact Hr.
Qed.

(** C18: [parseInt] on whitespace, then an unsigned run of digits, then
    anything that does not start with a digit: the value of the digits.
    So ["2024abc"] and ["1.5"] parse to 2024 and 1. *)
Theorem parseInt_digits w ds rest :
  forallb is_ws w = true -> forallb is_digit ds = true -> ds <> [] ->
  match rest with [] => True | c :: _ => is_digit c = false end ->
  parseInt (string_of_list_ascii (w ++ ds ++ rest))
  = Int (digits_value (map digit_val ds)).
Proof. exact (parseInt_digits_prefix w ds rest). Qed.

(** ** Witnesses *)

(** C25: [trim] is TrimString: [s.trim()] is [t] exactly when [t] is [s]
    with white space removed at both ends and [t] neither starts nor ends
    with white space. *)
Theorem trim_spec s t :
  trim s = t <-> trimmed (list_ascii_of_string s) (list_ascii_of_string t).
Proof.
  unfold trim. split.
  - intros <-. rewrite list_ascii_of_string_of_list_ascii. apply trim_list_trimmed.
  - intros H. apply trimmed_trim_list in H. rewrite H. apply string_of_list_ascii_of_string.
Qed.

Lemma trim_spec_witness :
  trimmed (list_ascii_of_string " 2, 3 ") (list_ascii_of_string "2, 3") /\ trim " 2, 3 " = "2, 3"%string.
Proof.
  assert (H : trimmed (list_ascii_of_string " 2, 3 ") (list_ascii_of_string "2, 3")).
  { exists [" "%char], [" "%char]. repeat split; reflexivity. }
  split; [exact H | exact (proj2 (trim_spec " 2, 3 " "2, 3") H)].
Defined.

Lemma parseInt_digits_witness :
  forallb is_ws [" "%char] = true /\ forallb is_digit ["2"; "0"; "2"; "4"]%char = true /\
  ["2"; "0"; "2"; "4"]%char <> [] /\
  parseInt (string_of_list_ascii ([" "%char] ++ ["2"; "0"; "2"; "4"]%char ++ ["a"; "b"]%char))
  = Int (digits_value (map digit_val ["2"; "0"; "2"; "4"]%char)).
Proof.
  split; [reflexivity|]. split; [reflexivity|]. split; [discriminate|].
  apply parseInt_digits; [reflexivity | reflexivity | discriminate | reflexivity].
Defined.

End JsString.
