(* ===== verification/Calendar.v ===== *)
(** * The civil calendar of [moment], as [src/index.js] uses it

    [moment] is a library the script only calls; its calendar arithmetic
    is modelled here from its documented behaviour (proleptic Gregorian
    calendar, local time with a fixed offset):
    - [add(1, 'day')] is [next_day];
    - [day()] (0 = Sunday .. 6 = Saturday) is [weekday];
    - [isSameOrBefore(other, 'day')] compares the start of both days, that
      is their day numbers: [is_same_or_before_day];
    - [hour(h)], [minute(m)], [second(s)] and [format()] are in the
      file [Timestamp].
    Day numbers count days from 1970-01-01 (a Thursday), so
    [weekday d = (day_number d + 4) mod 7]. *)

From Stdlib Require Import ZArith List String Ascii Bool Lia Sorted.
From S2P Require Import Prelude.
Import ListNotations.
Open Scope Z_scope.

Module Calendar.

Record date : Type := mkDate { year : Z; month : Z; day : Z }.

Definition is_leap (y : Z) : bool :=
  ((y mod 4 =? 0) && negb (y mod 100 =? 0)) || (y mod 400 =? 0).

Definition days_in_month (y m : Z) : Z :=
  if m =? 2 then (if is_leap y then 29 else 28)
  else if (m =? 4) || (m =? 6) || (m =? 9) || (m =? 11) then 30
  else 31.

Definition year_length (y : Z) : Z := if is_leap y then 366 else 365.

Definition valid_date (d : date) : bool :=
  (1 <=? month d) && (month d <=? 12) &&
  (1 <=? day d) && (day d <=? days_in_month (year d) (month d)).

(** [m.add(1, 'day')] *)
Definition next_day (d : date) : date :=
  if day d <? days_in_month (year d) (month d)
  then mkDate (year d) (month d) (day d + 1)
  else if month d <? 12 then mkDate (year d) (month d + 1) 1
  else mkDate (year d + 1) 1 1.

(** Leap years in [1 .. x] (extended to all of [Z] by floor division). *)
Definition nleap (x : Z) : Z := x / 4 - x / 100 + x / 400.

Definition days_before_year (y : Z) : Z :=
  365 * (y - 1970) + (nleap (y - 1) - nleap 1969).

(** Days of the months [1 .. k] of year [y]. *)
Fixpoint days_of_months (y : Z) (k : nat) : Z :=
  match k with
  | O => 0
  | S k' => days_of_months y k' + days_in_month y (Z.of_nat k)
  end.

Definition days_before_month (y m : Z) : Z := days_of_months y (Z.to_nat (m - 1)).

Definition day_number (d : date) : Z :=
  days_before_year (year d) + days_before_month (year d) (month d) + day d - 1.

(** [m.day()] *)
Definition weekday (d : date) : Z := (day_number d + 4) mod 7.

(** A reference for the day of the week, independent of day numbers:
    Sakamoto's formula, where January and February count as months of the
    previous year. *)
Definition sakamoto_table : list Z := [0; 3; 2; 5; 0; 3; 5; 1; 4; 6; 2; 4].

Definition weekday_ref (d : date) : Z :=
  let y := if month d <? 3 then year d - 1 else year d in
  (y + y / 4 - y / 100 + y / 400 + nth (Z.to_nat (month d - 1)) sakamoto_table 0 + day d) mod 7.

(** [a.isSameOrBefore(b, 'day')] *)
Definition is_same_or_before_day (a b : date) : bool := day_number a <=? day_number b.

(** The dates [while (d.isSameOrBefore(e, 'day')) { ...; d.add(1,'day') }]
    visits, with [fuel] bounding the number of iterations. *)
Fixpoint traverse (fuel : nat) (cur stop : date) : list date :=
  match fuel with
  | O => []
  | S f => if is_same_or_before_day cur stop
           then cur :: traverse f (next_day cur) stop
           else []
  end.

(** ** Calendar arithmetic *)

Lemma nleap_step y : nleap y - nleap (y - 1) = if is_leap y then 1 else 0.
Proof.
  unfold nleap, is_leap.
  pose proof (Zdiv_step y 4 ltac:(lia)) as H4.
  pose proof (Zdiv_step y 100 ltac:(lia)) as H100.
  pose proof (Zdiv_step y 400 ltac:(lia)) as H400.
  pose proof (Zmod_mul_zero y 100 4 ltac:(lia) ltac:(lia)) as D1.
  pose proof (Zmod_mul_zero y 4 25 ltac:(lia) ltac:(lia)) as D2.
  simpl in D1, D2.
  destruct (Z.eqb_spec (y mod 4) 0), (Z.eqb_spec (y mod 100) 0),
    (Z.eqb_spec (y mod 400) 0); simpl in *; lia.
Qed.

Lemma days_before_year_succ y :
  days_before_year (y + 1) = days_before_year y + year_length y.
Proof.
  unfold days_before_year, year_length.
  pose proof (nleap_step y) as H. replace (y + 1 - 1) with y by lia.
  destruct (is_leap y); lia.
Qed.

Lemma year_length_bounds y : 365 <= year_length y <= 366.
Proof. unfold year_length. destruct (is_leap y); lia. Qed.

Lemma days_in_month_bounds y m : 28 <= days_in_month y m <= 31.
Proof.
  unfold days_in_month.
  destruct (m =? 2); [destruct (is_leap y); lia|].
  destruct (_ || _); lia.
Qed.

Lemma days_before_month_succ y m :
  1 <= m -> days_before_month y (m + 1) = days_before_month y m + days_in_month y m.
Proof.
  intros Hm. unfold days_before_month.
  replace (Z.to_nat (m + 1 - 1)) with (S (Z.to_nat (m - 1))) by lia. simpl.
  f_equal. f_equal. lia.
Qed.

Lemma days_before_month_1 y : days_before_month y 1 = 0.
Proof. reflexivity. Qed.

Lemma days_before_month_13 y : days_before_month y 13 = year_length y.
Proof.
  unfold days_before_month, year_length.
  cbv - [is_leap]. destruct (is_leap y); reflexivity.
Qed.

(** Later months start at least 28 days per month later. *)
Lemma days_before_month_mono y m1 m2 :
  1 <= m1 <= m2 -> days_before_month y m1 + 28 * (m2 - m1) <= days_before_month y m2.
Proof.
  intros Hm.
  assert (Hn : forall n, days_before_month y m1 + 28 * Z.of_nat n
                         <= days_before_month y (m1 + Z.of_nat n)).
  { induction n as [|n IH]; [simpl; rewrite !Z.add_0_r; lia|].
    replace (m1 + Z.of_nat (S n)) with (m1 + Z.of_nat n + 1) by lia.
    rewrite days_before_month_succ by lia.
    pose proof (days_in_month_bounds y (m1 + Z.of_nat n)). lia. }
  specialize (Hn (Z.to_nat (m2 - m1))).
  replace (m1 + Z.of_nat (Z.to_nat (m2 - m1))) with m2 in Hn by lia. lia.
Qed.

Lemma days_before_month_nonneg y m : 1 <= m -> 0 <= days_before_month y m.
Proof.
  intros H. pose proof (days_before_month_mono y 1 m ltac:(lia)) as M.
  rewrite days_before_month_1 in M. lia.
Qed.

Lemma valid_date_iff d :
  valid_date d = true <->
  1 <= month d <= 12 /\ 1 <= day d <= days_in_month (year d) (month d).
Proof.
  unfold valid_date. rewrite !andb_true_iff, !Z.leb_le. tauto.
Qed.

(** [add(1, 'day')] keeps dates valid and moves one day forward. *)
Lemma next_day_valid d : valid_date d = true -> valid_date (next_day d) = true.
Proof.
  rewrite valid_date_iff. intros H. unfold next_day.
  destruct (Z.ltb_spec (day d) (days_in_month (year d) (month d)));
    [|destruct (Z.ltb_spec (month d) 12)];
    apply valid_date_iff; simpl;
    pose proof (days_in_month_bounds (year d) (month d + 1));
    pose proof (days_in_month_bounds (year d + 1) 1); lia.
Qed.

Lemma day_number_next d :
  valid_date d = true -> day_number (next_day d) = day_number d + 1.
Proof.
  rewrite valid_date_iff. intros H. unfold next_day, day_number.
  destruct (Z.ltb_spec (day d) (days_in_month (year d) (month d))); simpl; [lia|].
  destruct (Z.ltb_spec (month d) 12); simpl.
  - rewrite days_before_month_succ by lia. lia.
  - assert (Hm : month d = 12) by lia. rewrite Hm in *.
    assert (Hdim : days_in_month (year d) 12 = 31) by reflexivity.
    pose proof (days_before_month_succ (year d) 12 ltac:(lia)) as H12.
    change (12 + 1) with 13 in H12.
    rewrite days_before_month_13, Hdim in H12.
    rewrite days_before_year_succ, days_before_month_1. lia.
Qed.

Lemma nleap_1969 : nleap 1969 = 477.
Proof. reflexivity. Qed.

Lemma month_cases m : 1 <= m <= 12 -> In m [1; 2; 3; 4; 5; 6; 7; 8; 9; 10; 11; 12].
Proof. intros Hm. simpl. lia. Qed.

(** Run [tac] on each of the twelve months. *)
Ltac by_month m Hm tac :=
  let Hin := fresh "Hin" in
  pose proof (month_cases m Hm) as Hin;
  repeat (destruct Hin as [<-|Hin]; [tac|]); destruct Hin.

(** The days before each month: the common-year table, plus the leap day
    from March on. *)
Lemma days_before_month_closed y m :
  1 <= m <= 12 ->
  days_before_month y m
  = nth (Z.to_nat (m - 1)) [0; 31; 59; 90; 120; 151; 181; 212; 243; 273; 304; 334] 0
    + (if (3 <=? m) && is_leap y then 1 else 0).
Proof.
  intros Hm. unfold days_before_month.
  by_month m Hm ltac:(cbv - [is_leap]; destruct (is_leap y); reflexivity).
Qed.

(** C20: [day()] agrees with Sakamoto's day-of-week formula on every valid
    date of the proleptic Gregorian calendar: the weekday convention of the
    skipped days (0 = Sunday .. 6 = Saturday) is the usual one. *)
Theorem weekday_sakamoto d :
  valid_date d = true -> weekday d = weekday_ref d.
Proof.
  rewrite valid_date_iff. intros [Hm _].
  destruct d as [y m dd]; cbn [year month day] in *.
  unfold weekday, weekday_ref, day_number, days_before_year; cbn [year month day].
  rewrite nleap_1969, days_before_month_closed by exact Hm.
  pose proof (nleap_step y) as Hs. unfold nleap in *.
  set (A := 365 * (y - 1970)). assert (HA : A = 365 * (y - 1970)) by reflexivity.
  clearbody A.
  destruct (is_leap y); by_month m Hm ltac:(simpl;
    generalize dependent ((y - 1) / 4); generalize dependent ((y - 1) / 100);
    generalize dependent ((y - 1) / 400); generalize dependent (y / 4);
    generalize dependent (y / 100); generalize dependent (y / 400);
    intros; Z.to_euclidean_division_equations; lia).
Qed.

(** ** Day numbers determine dates *)

Lemma day_number_year_bounds d :
  valid_date d = true ->
  days_before_year (year d) <= day_number d < days_before_year (year d + 1).
Proof.
  rewrite valid_date_iff. intros [Hm Hd]. unfold day_number.
  rewrite days_before_year_succ.
  pose proof (days_before_month_nonneg (year d) (month d) ltac:(lia)).
  pose proof (days_before_month_succ (year d) (month d) ltac:(lia)).
  pose proof (days_before_month_mono (year d) (month d + 1) 13 ltac:(lia)).
  rewrite days_before_month_13 in *. lia.
Qed.

Lemma days_before_year_mono y1 y2 :
  y1 <= y2 -> days_before_year y1 + 365 * (y2 - y1) <= days_before_year y2.
Proof.
  intros Hy.
  assert (Hn : forall n, days_before_year y1 + 365 * Z.of_nat n
                         <= days_before_year (y1 + Z.of_nat n)).
  { induction n as [|n IH]; [simpl; rewrite !Z.add_0_r; lia|].
    replace (y1 + Z.of_nat (S n)) with (y1 + Z.of_nat n + 1) by lia.
    rewrite days_before_year_succ.
    pose proof (year_length_bounds (y1 + Z.of_nat n)). lia. }
  specialize (Hn (Z.to_nat (y2 - y1))).
  replace (y1 + Z.of_nat (Z.to_nat (y2 - y1))) with y2 in Hn by lia. lia.
Qed.

Lemma day_number_same_year d1 d2 :
  valid_date d1 = true -> valid_date d2 = true ->
  day_number d1 = day_number d2 -> year d1 = year d2.
Proof.
  intros V1 V2 E.
  pose proof (day_number_year_bounds d1 V1).
  pose proof (day_number_year_bounds d2 V2).
  destruct (Z.lt_trichotomy (year d1) (year d2)) as [Hlt|[Heq|Hgt]]; [|exact Heq|].
  - pose proof (days_before_year_mono (year d1 + 1) (year d2) ltac:(lia)). lia.
  - pose proof (days_before_year_mono (year d2 + 1) (year d1) ltac:(lia)). lia.
Qed.

(** Within one year, the ordinal [days_before_month + day] fixes the month. *)
Lemma ordinal_same_month y m1 m2 dd1 dd2 :
  1 <= m1 <= 12 -> 1 <= m2 <= 12 ->
  1 <= dd1 <= days_in_month y m1 -> 1 <= dd2 <= days_in_month y m2 ->
  days_before_month y m1 + dd1 = days_before_month y m2 + dd2 -> m1 = m2.
Proof.
  intros H1 H2 D1 D2 E.
  destruct (Z.lt_trichotomy m1 m2) as [Hlt|[Heq|Hgt]]; [|exact Heq|].
  - pose proof (days_before_month_succ y m1 ltac:(lia)).
    pose proof (days_before_month_mono y (m1 + 1) m2 ltac:(lia)). lia.
  - pose proof (days_before_month_succ y m2 ltac:(lia)).
    pose proof (days_before_month_mono y (m2 + 1) m1 ltac:(lia)). lia.
Qed.

(** Two valid dates with the same day number are the same date. *)
Theorem day_number_inj d1 d2 :
  valid_date d1 = true -> valid_date d2 = true ->
  day_number d1 = day_number d2 -> d1 = d2.
Proof.
  intros V1 V2 E.
  pose proof (day_number_same_year d1 d2 V1 V2 E) as Hy.
  apply valid_date_iff in V1, V2.
  destruct d1 as [y1 m1 dd1], d2 as [y2 m2 dd2]; simpl in *. subst y2.
  unfold day_number in E; simpl in E.
  assert (Hm : m1 = m2) by (apply (ordinal_same_month y1 m1 m2 dd1 dd2); lia).
  subst m2. f_equal. lia.
Qed.

(** ** The traversal of [generateHistory] *)

Definition jan1 (y : Z) : date := mkDate y 1 1.
Definition dec31 (y : Z) : date := mkDate y 12 31.

Lemma iter_next_valid n d :
  valid_date d = true -> valid_date (Nat.iter n next_day d) = true.
Proof.
  intros H. induction n as [|n IH]; [exact H|]. simpl. now apply next_day_valid.
Qed.

Lemma day_number_iter n d :
  valid_date d = true -> day_number (Nat.iter n next_day d) = day_number d + Z.of_nat n.
Proof.
  intros H. induction n as [|n IH]; [simpl; lia|].
  simpl. rewrite day_number_next by now apply iter_next_valid. lia.
Qed.

(** With enough fuel, the loop visits the successive days from [cur] up to
    the day of [stop]. *)
Lemma traverse_iter fuel cur stop :
  valid_date cur = true ->
  (Z.to_nat (day_number stop - day_number cur + 1) <= fuel)%nat ->
  traverse fuel cur stop
  = map (fun i => Nat.iter i next_day cur)
        (seq 0 (Z.to_nat (day_number stop - day_number cur + 1))).
Proof.
  revert cur. induction fuel as [|f IH]; intros cur V Hf; simpl.
  - inversion Hf as [H0|]. now rewrite H0.
  - unfold is_same_or_before_day.
    destruct (Z.leb_spec (day_number cur) (day_number stop)) as [Hle|Hgt].
    + replace (Z.to_nat (day_number stop - day_number cur + 1))
        with (S (Z.to_nat (day_number stop - day_number (next_day cur) + 1)))
        in * by (rewrite day_number_next by exact V; lia).
      simpl. f_equal. rewrite IH by (auto using next_day_valid; lia).
      rewrite <- seq_shift, map_map. apply map_ext. intros i.
      symmetry. apply Nat.iter_succ_r.
    + replace (Z.to_nat (day_number stop - day_number cur + 1)) with 0%nat by lia.
      reflexivity.
Qed.

Lemma year_of_day_number d y :
  valid_date d = true ->
  days_before_year y <= day_number d < days_before_year (y + 1) -> year d = y.
Proof.
  intros V B. pose proof (day_number_year_bounds d V).
  destruct (Z.lt_trichotomy (year d) y) as [Hlt|[Heq|Hgt]]; [|exact Heq|].
  - pose proof (days_before_year_mono (year d + 1) y ltac:(lia)). lia.
  - pose proof (days_before_year_mono (y + 1) (year d) ltac:(lia)). lia.
Qed.

Lemma jan1_valid y : valid_date (jan1 y) = true.
Proof. reflexivity. Qed.

Lemma day_number_jan1 y : day_number (jan1 y) = days_before_year y.
Proof. unfold day_number. simpl. rewrite days_before_month_1. lia. Qed.

Lemma day_number_dec31 y :
  day_number (dec31 y) = days_before_year y + year_length y - 1.
Proof.
  unfold day_number, dec31. simpl.
  pose proof (days_before_month_succ y 12 ltac:(lia)) as H12.
  change (12 + 1) with 13 in H12. rewrite days_before_month_13 in H12.
  assert (days_in_month y 12 = 31) by reflexivity. lia.
Qed.

Lemma traverse_year_iter y fuel :
  (366 <= fuel)%nat ->
  traverse fuel (jan1 y) (dec31 y)
  = map (fun i => Nat.iter i next_day (jan1 y)) (seq 0 (Z.to_nat (year_length y))).
Proof.
  intros Hf. pose proof (year_length_bounds y).
  rewrite traverse_iter by (try reflexivity; rewrite day_number_dec31, day_number_jan1; lia).
  f_equal. f_equal. rewrite day_number_dec31, day_number_jan1. lia.
Qed.

Lemma traverse_year_In y fuel d :
  (366 <= fuel)%nat ->
  In d (traverse fuel (jan1 y) (dec31 y)) <-> valid_date d = true /\ year d = y.
Proof.
  intros Hf. rewrite traverse_year_iter by exact Hf.
  pose proof (year_length_bounds y) as Hyl. rewrite in_map_iff. split.
  - intros [i [<- Hi]]. apply in_seq in Hi.
    split; [apply iter_next_valid; reflexivity|].
    apply year_of_day_number; [apply iter_next_valid; reflexivity|].
    rewrite day_number_iter, day_number_jan1, days_before_year_succ by reflexivity.
    lia.
  - intros [V <-]. exists (Z.to_nat (day_number d - days_before_year (year d))).
    pose proof (day_number_year_bounds d V) as B.
    rewrite days_before_year_succ in B. split.
    + apply day_number_inj; [apply iter_next_valid; reflexivity | exact V |].
      rewrite day_number_iter, day_number_jan1 by reflexivity. lia.
    + apply in_seq. lia.
Qed.

(** The loop visits the days of the year in strictly increasing order. *)
Lemma traverse_year_sorted y fuel :
  (366 <= fuel)%nat ->
  StronglySorted (fun a b => day_number a < day_number b) (traverse fuel (jan1 y) (dec31 y)).
Proof.
  intros Hf. rewrite traverse_year_iter by exact Hf.
  apply StronglySorted_map_seq. intros i j Hij.
  rewrite !day_number_iter by reflexivity. lia.
Qed.

(** C3: The while loop of [generateHistory] visits every date of the target
    year exactly once, in increasing order: its dates are exactly the valid
    dates of year [y], their day numbers are consecutive from the day
    number of January 1, and there are 365 or 366 of them (leap years). *)
Theorem traverse_year y fuel :
  (366 <= fuel)%nat ->
  (forall d, In d (traverse fuel (jan1 y) (dec31 y)) <-> valid_date d = true /\ year d = y) /\
  map day_number (traverse fuel (jan1 y) (dec31 y))
  = map (fun i => days_before_year y + Z.of_nat i) (seq 0 (Z.to_nat (year_length y))) /\
  List.length (traverse fuel (jan1 y) (dec31 y)) = Z.to_nat (year_length y).
Proof.
  intros Hf. split; [intros d; now apply traverse_year_In|].
  rewrite traverse_year_iter by exact Hf. split.
  - rewrite map_map. apply map_ext. intros i.
    rewrite day_number_iter, day_number_jan1 by reflexivity. reflexivity.
  - now rewrite length_map, length_seq.
Qed.

(** ** Witnesses *)

Lemma weekday_sakamoto_witness :
  valid_date (mkDate 2024 2 29) = true /\ weekday (mkDate 2024 2 29) = weekday_ref (mkDate 2024 2 29).
Proof. split; [reflexivity | apply weekday_sakamoto; reflexivity]. Defined.

Lemma traverse_year_witness :
  (366 <= 366)%nat /\ List.length (traverse 366 (jan1 2024) (dec31 2024)) = 366%nat.
Proof. split; [lia|]. exact (proj2 (proj2 (traverse_year 2024 366 ltac:(lia)))). Defined.

End Calendar.
