(* ===== verification/Timestamp.v ===== *)
(** * Commit timestamps: [moment]'s setters and [format()]

    [src/index.js] lines 108-112 build each commit time as
    [currentDate.clone().hour(h).minute(m).second(s).format()].
    A [moment] here is a date and a wall-clock time; [format()] with no
    argument prints [YYYY-MM-DDTHH:mm:ssZ], the last field being the
    local UTC offset [+HH:MM] or [-HH:MM].  The offset is a fixed number
    of minutes (daylight-saving transitions are not modelled).  The
    setters are modelled for in-range arguments, which are the only ones
    the script passes ([Random.getRandomIntZ_bounds]).

    [parse_iso] reads the printed form back; [parse_format] shows it is a
    left inverse of [format] on in-range fields, so distinct commit times
    give distinct strings. *)

From Stdlib Require Import ZArith List String Ascii Bool Lia.
From S2P Require Import Prelude JsString Calendar.
Import ListNotations.
Import Calendar.
Open Scope Z_scope.

Module Timestamp.

Record moment : Type := mkMoment {
  mdate : date;
  hour : Z;
  minute : Z;
  second : Z
}.

(** [moment(`${y}-01-01T00:00:00`)] and, in general, midnight of a day. *)
Definition start_of_day (d : date) : moment := mkMoment d 0 0 0.

(** [m.clone().hour(h)], [.minute(mi)], [.second(s)] *)
Definition set_hour (h : Z) (m : moment) : moment :=
  mkMoment (mdate m) h (minute m) (second m).
Definition set_minute (mi : Z) (m : moment) : moment :=
  mkMoment (mdate m) (hour m) mi (second m).
Definition set_second (s : Z) (m : moment) : moment :=
  mkMoment (mdate m) (hour m) (minute m) s.

Definition digit (z : Z) : ascii := ascii_of_nat (48 + Z.to_nat z).

(** The last [w] decimal digits of [z], zero padded. *)
Fixpoint pad (w : nat) (z : Z) : list ascii :=
  match w with
  | O => []
  | S w' => pad w' (z / 10) ++ [digit (z mod 10)]
  end.

Definition offset_string (off : Z) : list ascii :=
  (if off <? 0 then "-"%char else "+"%char)
    :: pad 2 (Z.abs off / 60) ++ ":"%char :: pad 2 (Z.abs off mod 60).

(** [m.format()] at UTC offset [off] minutes. *)
Definition format_list (off : Z) (m : moment) : list ascii :=
  pad 4 (year (mdate m)) ++ "-"%char :: pad 2 (month (mdate m)) ++
  "-"%char :: pad 2 (day (mdate m)) ++ "T"%char :: pad 2 (hour m) ++
  ":"%char :: pad 2 (minute m) ++ ":"%char :: pad 2 (second m) ++
  offset_string off.

Definition format (off : Z) (m : moment) : string :=
  string_of_list_ascii (format_list off m).

(** ** Reading a formatted time back *)

Fixpoint read_num (w : nat) (acc : Z) (l : list ascii) : option (Z * list ascii) :=
  match w with
  | O => Some (acc, l)
  | S w' =>
      match l with
      | c :: l' => if JsString.is_digit c then read_num w' (acc * 10 + JsString.digit_val c) l'
                   else None
      | [] => None
      end
  end.

Definition expect (c : ascii) (l : list ascii) : option (list ascii) :=
  match l with
  | c' :: l' => if ascii_dec c c' then Some l' else None
  | [] => None
  end.

Definition obind {A B} (o : option A) (f : A -> option B) : option B :=
  match o with Some a => f a | None => None end.

Definition parse_iso (l : list ascii) : option (moment * Z) :=
  obind (read_num 4 0 l) (fun '(y, l) =>
  obind (expect "-" l) (fun l =>
  obind (read_num 2 0 l) (fun '(mo, l) =>
  obind (expect "-" l) (fun l =>
  obind (read_num 2 0 l) (fun '(d, l) =>
  obind (expect "T" l) (fun l =>
  obind (read_num 2 0 l) (fun '(h, l) =>
  obind (expect ":" l) (fun l =>
  obind (read_num 2 0 l) (fun '(mi, l) =>
  obind (expect ":" l) (fun l =>
  obind (read_num 2 0 l) (fun '(s, l) =>
  match l with
  | sg :: l =>
      obind (read_num 2 0 l) (fun '(oh, l) =>
      obind (expect ":" l) (fun l =>
      obind (read_num 2 0 l) (fun '(om, l) =>
      match l with
      | [] => let a := oh * 60 + om in
              if ascii_dec sg "-" then Some (mkMoment (mkDate y mo d) h mi s, - a)
              else if ascii_dec sg "+" then Some (mkMoment (mkDate y mo d) h mi s, a)
              else None
      | _ => None
      end)))
  | [] => None
  end))))))))))).

(** ** The start and end of the target year (lines 75-76)

    [moment(`${targetYear}-01-01T00:00:00`)]: the year is printed by the
    template literal, that is [Number.prototype.toString], and the string
    is read by [moment]'s ISO 8601 parser as local time. *)

(** The decimal digits of [z >= 0], most significant first; [fuel] bounds
    the number of digits. *)
Fixpoint decimal (fuel : nat) (z : Z) : list ascii :=
  match fuel with
  | O => []
  | S f => if z <? 10 then [digit z] else decimal f (z / 10) ++ [digit (z mod 10)]
  end.

(** [String(n)] for an integer [n] (below [10^21], where JS switches to
    exponent notation; the script prints only years).  A number [z > 0] has
    at most [log2 z + 1] decimal digits, the fuel given. *)
Definition number_to_string (n : JsString.number) : list ascii :=
  match n with
  | JsString.NaN => ["N"; "a"; "N"]%char
  | JsString.Int z =>
      let ds := decimal (S (Z.to_nat (Z.log2 (Z.abs z)))) (Z.abs z) in
      if z <? 0 then "-"%char :: ds else ds
  end.

Definition start_string (targetYear : Z) : list ascii :=
  number_to_string (JsString.Int targetYear) ++ list_ascii_of_string "-01-01T00:00:00".

Definition end_string (targetYear : Z) : list ascii :=
  number_to_string (JsString.Int targetYear) ++ list_ascii_of_string "-12-31T23:59:59".

(** [moment(s)] on a string of the form [YYYY-MM-DDTHH:mm:ss], the ISO 8601
    form without offset (local time) the script builds.  [moment] checks
    each field against its range and returns an invalid moment ([None])
    otherwise; [24:00:00] is accepted and denotes midnight of the next
    day.  Other ISO forms (a space for [T], fractions of a second, week or
    ordinal dates) and the non-ISO fallback to [Date] are not modelled:
    [None] there only says the string is not of the form above. *)
Definition parse_iso_local (l : list ascii) : option moment :=
  obind (read_num 4 0 l) (fun '(y, l) =>
  obind (expect "-" l) (fun l =>
  obind (read_num 2 0 l) (fun '(mo, l) =>
  obind (expect "-" l) (fun l =>
  obind (read_num 2 0 l) (fun '(d, l) =>
  obind (expect "T" l) (fun l =>
  obind (read_num 2 0 l) (fun '(h, l) =>
  obind (expect ":" l) (fun l =>
  obind (read_num 2 0 l) (fun '(mi, l) =>
  obind (expect ":" l) (fun l =>
  obind (read_num 2 0 l) (fun '(s, l) =>
  match l with
  | [] =>
      let dt := mkDate y mo d in
      if negb (valid_date dt) || (59 <? mi) || (59 <? s) then None
      else if h <? 24 then Some (mkMoment dt h mi s)
      else if (h =? 24) && (mi =? 0) && (s =? 0) then Some (mkMoment (next_day dt) 0 0 0)
      else None
  | _ => None
  end))))))))))).

(** ** Round trip *)

Lemma digit_ok d :
  0 <= d < 10 -> JsString.is_digit (digit d) = true /\ JsString.digit_val (digit d) = d.
Proof.
  intros H. unfold JsString.is_digit, JsString.digit_val, digit.
  rewrite Ascii.nat_ascii_embedding by lia. split.
  - apply andb_true_iff. split; apply Nat.leb_le; lia.
  - lia.
Qed.

Lemma read_num_add w1 w2 acc l :
  read_num (w1 + w2) acc l
  = obind (read_num w1 acc l) (fun '(a, l') => read_num w2 a l').
Proof.
  revert acc l. induction w1 as [|w1 IH]; intros acc l; [reflexivity|].
  simpl. destruct l as [|c l]; [reflexivity|].
  destruct (JsString.is_digit c); [apply IH | reflexivity].
Qed.

(** Reading [w] digits back from [pad w z] gives [z]. *)
Lemma read_num_pad w z acc rest :
  0 <= z < 10 ^ Z.of_nat w ->
  read_num w acc (pad w z ++ rest) = Some (acc * 10 ^ Z.of_nat w + z, rest).
Proof.
  revert z acc rest. induction w as [|w IH]; intros z acc rest Hz.
  - simpl in *. f_equal. f_equal. lia.
  - rewrite Nat2Z.inj_succ, Z.pow_succ_r in * by lia.
    simpl pad. replace (S w) with (w + 1)%nat by lia. rewrite read_num_add.
    rewrite <- app_assoc. simpl app.
    pose proof (Z.div_mod z 10 ltac:(lia)) as Ez.
    pose proof (Z.mod_pos_bound z 10 ltac:(lia)) as Bz.
    rewrite IH by (split; [apply Z.div_pos | apply Z.div_lt_upper_bound]; lia).
    cbn [obind read_num]. destruct (digit_ok (z mod 10) Bz) as [-> ->]. f_equal. f_equal. nia.
Qed.

Definition field_ok (w : nat) (z : Z) : bool := (0 <=? z) && (z <? 10 ^ Z.of_nat w).

(** The fields [format()] prints without losing digits. *)
Definition printable (off : Z) (m : moment) : bool :=
  field_ok 4 (year (mdate m)) && field_ok 2 (month (mdate m)) &&
  field_ok 2 (day (mdate m)) && field_ok 2 (hour m) &&
  field_ok 2 (minute m) && field_ok 2 (second m) && (Z.abs off <? 6000).

Lemma field_ok_iff w z : field_ok w z = true <-> 0 <= z < 10 ^ Z.of_nat w.
Proof. unfold field_ok. rewrite andb_true_iff, Z.leb_le, Z.ltb_lt. reflexivity. Qed.

Lemma expect_hit c l : expect c (c :: l) = Some l.
Proof. unfold expect. destruct (ascii_dec c c); [reflexivity | contradiction]. Qed.

Ltac read_field :=
  rewrite read_num_pad by (apply field_ok_iff; assumption); cbn [obind];
  try (rewrite expect_hit; cbn [obind]).

Lemma parse_format_list off m :
  printable off m = true -> parse_iso (format_list off m) = Some (m, off).
Proof.
  unfold printable. rewrite !andb_true_iff, Z.ltb_lt.
  intros [[[[[[Hy Hmo] Hd] Hh] Hmi] Hs] Ho].
  assert (Hoh : field_ok 2 (Z.abs off / 60) = true).
  { apply field_ok_iff. split; [apply Z.div_pos|apply Z.div_lt_upper_bound]; simpl; lia. }
  assert (Hom : field_ok 2 (Z.abs off mod 60) = true).
  { apply field_ok_iff. pose proof (Z.mod_pos_bound (Z.abs off) 60). simpl. lia. }
  destruct m as [[y mo d] h mi s]; cbn [mdate hour minute second year month day] in *.
  unfold parse_iso, format_list, offset_string.
  cbn [mdate hour minute second year month day].
  do 6 read_field. cbn [app].
  read_field. rewrite <- (app_nil_r (pad 2 (Z.abs off mod 60))). read_field.
  pose proof (Z.div_mod (Z.abs off) 60 ltac:(lia)).
  replace (0 * 10 ^ Z.of_nat 4 + y) with y by lia.
  replace (0 * 10 ^ Z.of_nat 2) with 0 by lia. rewrite !Z.add_0_l.
  destruct (Z.ltb_spec off 0); cbn; f_equal; f_equal; lia.
Qed.

(** C16: [parse_iso] inverts [format()]: the printed time and offset are
    recovered from the string. *)
Theorem parse_format off m :
  printable off m = true -> parse_iso (format_list off m) = Some (m, off).
Proof. exact (parse_format_list off m). Qed.

(** A valid date of a four-digit year at an in-range time of day is
    printable. *)
Lemma printable_day off d h mi s :
  valid_date d = true -> 0 <= year d < 10000 -> Z.abs off < 6000 ->
  0 <= h <= 23 -> 0 <= mi <= 59 -> 0 <= s <= 59 ->
  printable off (mkMoment d h mi s) = true.
Proof.
  rewrite valid_date_iff. intros [Hm Hd] Hy Ho Hh Hmi Hs.
  pose proof (days_in_month_bounds (year d) (month d)).
  unfold printable. cbn [mdate hour minute second].
  rewrite !andb_true_iff, !field_ok_iff, Z.ltb_lt. simpl. repeat split; lia.
Qed.

(** ** The strings of lines 75-76 *)

Lemma decimal_pad w z fuel :
  0 <= z < 10 ^ Z.of_nat (S w) -> (w = O \/ 10 ^ Z.of_nat w <= z) -> (S w <= fuel)%nat ->
  decimal fuel z = pad (S w) z.
Proof.
  revert z fuel. induction w as [|w IH]; intros z fuel Hz Hw Hf;
    (destruct fuel as [|f]; [lia|]); simpl decimal.
  - simpl in Hz. destruct (Z.ltb_spec z 10); [|lia].
    simpl. rewrite Z.mod_small by lia. reflexivity.
  - destruct Hw as [Hw|Hw]; [discriminate|].
    assert (H10 : 10 <= 10 ^ Z.of_nat (S w)) by (rewrite Nat2Z.inj_succ, Z.pow_succ_r by lia; lia).
    destruct (Z.ltb_spec z 10); [lia|].
    change (pad (S (S w)) z) with (pad (S w) (z / 10) ++ [digit (z mod 10)]).
    f_equal. apply IH; [| |lia].
    + rewrite Nat2Z.inj_succ, Z.pow_succ_r in Hz by lia.
      split; [apply Z.div_pos|apply Z.div_lt_upper_bound]; lia.
    + destruct w as [|w]; [left; reflexivity|right].
      rewrite Nat2Z.inj_succ, Z.pow_succ_r in Hw by lia.
      apply Z.div_le_lower_bound; lia.
Qed.

Lemma number_to_string_4 y :
  1000 <= y <= 9999 -> number_to_string (JsString.Int y) = pad 4 y.
Proof.
  intros Hy. unfold number_to_string. rewrite Z.abs_eq by lia.
  destruct (Z.ltb_spec y 0); [lia|].
  apply decimal_pad; [simpl; lia|right; simpl; lia|].
  pose proof (Z.log2_le_mono 1000 y ltac:(lia)). change (Z.log2 1000) with 9 in *. lia.
Qed.

(** C21: For every four-digit target year, [moment] reads the strings of
    lines 75-76 as midnight of January 1 and [23:59:59] of December 31 of
    that year: the loop bounds [Calendar.jan1] and [Calendar.dec31] the
    model starts from. *)
Theorem start_end_strings y :
  1000 <= y <= 9999 ->
  parse_iso_local (start_string y) = Some (start_of_day (jan1 y)) /\
  parse_iso_local (end_string y) = Some (mkMoment (dec31 y) 23 59 59).
Proof.
  intros Hy. assert (F : field_ok 4 y = true) by (apply field_ok_iff; simpl; lia).
  unfold start_string, end_string, parse_iso_local.
  rewrite number_to_string_4 by exact Hy.
  split; (rewrite read_num_pad by (apply field_ok_iff; assumption)); cbn [obind];
    replace (0 * 10 ^ Z.of_nat 4 + y) with y by lia; reflexivity.
Qed.

(** ** Witnesses *)

Definition moment0 : moment := mkMoment (mkDate 2023 1 5) 13 4 9.

Lemma parse_format_witness :
  printable 60 moment0 = true /\ parse_iso (format_list 60 moment0) = Some (moment0, 60).
Proof. split; [reflexivity | apply parse_format; reflexivity]. Defined.

Lemma start_end_strings_witness :
  1000 <= 2024 <= 9999 /\
  parse_iso_local (start_string 2024) = Some (start_of_day (jan1 2024)).
Proof. split; [lia | exact (proj1 (start_end_strings 2024 ltac:(lia)))]. Defined.

End Timestamp.
