(* ===== verification/Random.v ===== *)
(** * [getRandomInt] over an explicit source of [Math.random] draws

    [src/index.js] lines 8-12:
<<
    function getRandomInt(min, max) {
        min = Math.ceil(min);
        max = Math.floor(max);
        return Math.floor(Math.random() * (max - min + 1)) + min;
    }
>>
    [Math.random] reads process-wide generator state.  The model makes that
    state explicit: an [rng] is an infinite sequence of draws and the index
    of the next one.  The engine the script runs on (Node's V8) fills the
    52 mantissa bits of a double in [1, 2) from its xorshift128+ state and
    subtracts 1, so a draw [k] stands for the double [k / 2^52] and a valid
    draw lies in [0, 2^52).  The product [Math.random() * n] is taken
    exactly (as a rational), so [Math.floor] of it is the floor division
    [k * n / 2^52]; the rounding of the double product is not modelled.
    The arguments are rationals, so [Math.ceil] and [Math.floor] are
    [Qceiling] and [Qfloor]. *)

From Stdlib Require Import ZArith QArith Qround List Lia.
From S2P Require Import Prelude.
Import ListNotations.
Open Scope Z_scope.

Module Random.

(** Draws are multiples of [2^-52] in [0, 1). *)
Definition resolution : Z := 2 ^ 52.

Record rng : Type := mkRng { draws : nat -> Z; pos : nat }.

Definition rng_ok (g : rng) : Prop := forall i, 0 <= draws g i < resolution.

(** [Math.random()]: the next draw, and the generator advanced by one. *)
Definition math_random : St rng Z :=
  fun g => (draws g (pos g), mkRng (draws g) (S (pos g))).

(** [Math.floor(u * n)] for the draw [u = k / 2^53]. *)
Definition scale (k n : Z) : Z := (k * n) / resolution.

Definition getRandomInt (min max : Q) : St rng Z :=
  let min := Qceiling min in
  let max := Qfloor max in
  k <- math_random ;;
  ret (scale k (max - min + 1) + min).

(** The integer call sites [getRandomInt(0, 2)] etc. *)
Definition getRandomIntZ (min max : Z) : St rng Z :=
  getRandomInt (inject_Z min) (inject_Z max).

(** ** Lemmas *)

Lemma scale_bounds k n :
  0 <= k < resolution -> 0 < n -> 0 <= scale k n < n.
Proof.
  intros Hk Hn. unfold scale. split.
  - apply Z.div_pos; unfold resolution in *; lia.
  - apply Z.div_lt_upper_bound; unfold resolution in *; nia.
Qed.

Lemma getRandomInt_run min max g :
  getRandomInt min max g
  = (scale (draws g (pos g)) (Qfloor max - Qceiling min + 1) + Qceiling min,
     mkRng (draws g) (S (pos g))).
Proof. reflexivity. Qed.

(** C6: [getRandomInt(min, max)] returns an integer of [[ceil min, floor max]]
    whenever that range is not empty, and consumes exactly one draw. *)
Theorem getRandomInt_bounds min max g :
  rng_ok g -> Qceiling min <= Qfloor max ->
  Qceiling min <= fst (getRandomInt min max g) <= Qfloor max /\
  snd (getRandomInt min max g) = mkRng (draws g) (S (pos g)).
Proof.
  intros Hg Hr. rewrite getRandomInt_run. simpl.
  pose proof (scale_bounds (draws g (pos g)) (Qfloor max - Qceiling min + 1)
                (Hg (pos g)) ltac:(lia)).
  split; [lia | reflexivity].
Qed.

Lemma getRandomIntZ_bounds min max g :
  rng_ok g -> min <= max -> min <= fst (getRandomIntZ min max g) <= max.
Proof.
  intros Hg Hr. unfold getRandomIntZ. rewrite getRandomInt_run, Qceiling_Z, Qfloor_Z.
  pose proof (scale_bounds (draws g (pos g)) (max - min + 1) (Hg (pos g)) ltac:(lia)).
  simpl. lia.
Qed.

Lemma rng_ok_advance g n : rng_ok g -> rng_ok (mkRng (draws g) n).
Proof. intros H i. exact (H i). Qed.

Lemma getRandomIntZ_spec min max g :
  rng_ok g -> min <= max ->
  exists v, min <= v <= max /\ getRandomIntZ min max g = (v, mkRng (draws g) (S (pos g))).
Proof.
  intros Hg Hr. exists (fst (getRandomIntZ min max g)).
  split; [now apply getRandomIntZ_bounds|]. reflexivity.
Qed.

(** The first draw [k] for which [Math.floor(k / 2^53 * n)] reaches [j]:
    the ceiling of [j * 2^53 / n]. *)
Definition cut (n j : Z) : Z := (j * resolution + n - 1) / n.

Lemma scale_interval k n j :
  0 < n -> scale k n = j <-> cut n j <= k < cut n (j + 1).
Proof.
  intros Hn. unfold scale, cut.
  rewrite Zdiv_iff by (unfold resolution; lia).
  rewrite (Zceil_le_iff _ n k Hn).
  rewrite (Zlt_ceil_iff _ n k Hn).
  unfold resolution in *. nia.
Qed.


Lemma cut_mono n i j : 0 < n -> i <= j -> cut n i <= cut n j.
Proof. intros Hn Hij. unfold cut. apply Z.div_le_mono; unfold resolution; nia. Qed.

Lemma cut_bounds n j : 0 < n -> 0 <= j <= n -> 0 <= cut n j <= resolution * j / n + 1.
Proof.
  intros Hn Hj. unfold cut. split.
  - apply Z.div_pos; unfold resolution in *; nia.
  - pose proof (Z.div_mod (j * resolution + n - 1) n ltac:(lia)).
    pose proof (Z.mod_pos_bound (j * resolution + n - 1) n Hn).
    pose proof (Z.div_mod (resolution * j) n ltac:(lia)).
    pose proof (Z.mod_pos_bound (resolution * j) n Hn). nia.
Qed.

Lemma cut_top n : 0 < n -> cut n n = resolution.
Proof.
  intros Hn. unfold cut. symmetry. apply (Z.div_unique_pos _ _ _ (n - 1)); lia.
Qed.

Lemma cut_step n j :
  0 < n -> resolution / n <= cut n (j + 1) - cut n j <= resolution / n + 1.
Proof.
  intros Hn. unfold cut.
  pose proof (Z.div_mod (j * resolution + n - 1) n ltac:(lia)).
  pose proof (Z.mod_pos_bound (j * resolution + n - 1) n Hn).
  pose proof (Z.div_mod ((j + 1) * resolution + n - 1) n ltac:(lia)).
  pose proof (Z.mod_pos_bound ((j + 1) * resolution + n - 1) n Hn).
  pose proof (Z.div_mod resolution n ltac:(lia)).
  pose proof (Z.mod_pos_bound resolution n Hn).
  set (a := (j * resolution + n - 1) / n) in *.
  set (b := ((j + 1) * resolution + n - 1) / n) in *.
  set (q := resolution / n) in *.
  assert (n * (b - a) > n * (q - 1)) by nia.
  assert (n * (b - a) < n * (q + 2)) by nia.
  split; nia.
Qed.

(** C7: [Math.floor(Math.random() * n)] is uniform up to one draw: for
    every result [j] of [[0, n)], the valid draws that give [j] form one
    interval of [[0, 2^52)] holding [floor(2^52 / n)] or
    [floor(2^52 / n) + 1] draws. *)
Theorem scale_uniform n j :
  0 < n -> 0 <= j < n ->
  exists a b, (forall k, 0 <= k < resolution -> (scale k n = j <-> a <= k < b)) /\
    0 <= a /\ b <= resolution /\ resolution / n <= b - a <= resolution / n + 1.
Proof.
  intros Hn Hj. exists (cut n j), (cut n (j + 1)).
  split; [intros k _; exact (scale_interval k n j Hn)|].
  split; [apply (cut_bounds n j); lia|].
  split; [rewrite <- (cut_top n Hn); apply cut_mono; lia|].
  exact (cut_step n j Hn).
Qed.

(** ** Witnesses *)

Definition rng_last : rng := mkRng (fun _ => resolution - 1) 0.

Lemma rng_last_ok : rng_ok rng_last.
Proof. intros i. unfold rng_last, resolution. simpl. lia. Qed.

Lemma getRandomInt_bounds_witness :
  rng_ok rng_last /\ Qceiling 0 <= Qfloor 23 /\
  Qceiling 0 <= fst (getRandomInt 0 23 rng_last) <= Qfloor 23.
Proof.
  assert (H : Qceiling 0 <= Qfloor 23) by (vm_compute; discriminate).
  split; [exact rng_last_ok|]. split; [exact H|].
  exact (proj1 (getRandomInt_bounds 0 23 rng_last rng_last_ok H)).
Defined.

Lemma scale_uniform_witness :
  0 < 24 /\ 0 <= 5 < 24 /\
  exists a b, (forall k, 0 <= k < resolution -> (scale k 24 = 5 <-> a <= k < b)) /\
    0 <= a /\ b <= resolution /\ resolution / 24 <= b - a <= resolution / 24 + 1.
Proof. split; [lia|]. split; [lia | exact (scale_uniform 24 5 ltac:(lia) ltac:(lia))]. Defined.


End Random.
