(* ===== verification/Params.v ===== *)
(** * Parameter collection: the three prompts of [generateHistory]

    [src/index.js] lines 41-71.  The terminal is a list of answer lines,
    consumed in order by the three prompts; each line carries the calendar
    year of the clock at the moment it is checked, because the year loop
    re-reads [moment().year()] on every attempt (line 46).  A prompt whose
    answers run out never resolves in the script; the model returns [None].
    Console warnings are returned as a list. *)

From Stdlib Require Import ZArith List String Ascii Bool Lia.
From S2P Require Import Prelude JsString.
Import ListNotations.
Import JsString.

Module Params.

(** An answer typed at a prompt, with the clock's year at that time. *)
Definition line : Type := (string * Z)%type.

Inductive warning : Type :=
| WarnYear (currentYear : Z)   (** line 49 *)
| WarnLevel.                   (** line 63 *)

(** JS relational operators on a number and an integer: [NaN] compares
    false. *)
Definition num_lt (a : number) (b : Z) : bool :=
  match a with Int z => (z <? b)%Z | NaN => false end.
Definition num_gt (a : number) (b : Z) : bool :=
  match a with Int z => (b <? z)%Z | NaN => false end.
Definition num_ge (a : number) (b : Z) : bool :=
  match a with Int z => (b <=? z)%Z | NaN => false end.
Definition num_le (a : number) (b : Z) : bool :=
  match a with Int z => (z <=? b)%Z | NaN => false end.

(** [targetYear = parseInt(yearInput.trim(), 10)] (line 45) *)
Definition parse_year (yearInput : string) : number := parseInt (trim yearInput).

(** The rejection test of line 48. *)
Definition year_rejected (targetYear : number) (currentYear : Z) : bool :=
  isNaN targetYear || num_lt targetYear 2008 || num_gt targetYear currentYear.

(** The year loop, lines 43-53: the year accepted, the answers left, the
    warnings printed. *)
Fixpoint ask_year (inp : list line) : option Z * list line * list warning :=
  match inp with
  | [] => (None, [], [])
  | (yearInput, currentYear) :: rest =>
      let targetYear := parse_year yearInput in
      if year_rejected targetYear currentYear then
        let '(r, rest', ws) := ask_year rest in (r, rest', WarnYear currentYear :: ws)
      else match targetYear with
           | Int y => (Some y, rest, [])
           | NaN => (None, rest, [])
           end
  end.

Definition levels : list string := ["low"; "medium"; "high"]%string.

(** [['low', 'medium', 'high'].includes(levelInput)] *)
Definition level_ok (levelInput : string) : bool :=
  existsb (String.eqb levelInput) levels.

(** The level loop, lines 56-65: the answer is lower-cased, not trimmed. *)
Fixpoint ask_level (inp : list line) : option string * list line * list warning :=
  match inp with
  | [] => (None, [], [])
  | (answer, _) :: rest =>
      let levelInput := toLowerCase answer in
      if level_ok levelInput then (Some levelInput, rest, [])
      else let '(r, rest', ws) := ask_level rest in (r, rest', WarnLevel :: ws)
  end.

(** The filter of line 69. *)
Definition keep_day (day : number) : bool :=
  negb (isNaN day) && num_ge day 0 && num_le day 6.

(** [skipDaysInput.split(',').map(day => parseInt(day.trim(), 10)).filter(...)] *)
Definition parse_skip_days (skipDaysInput : string) : list number :=
  filter keep_day (map (fun day => parseInt (trim day)) (split ","%char skipDaysInput)).

(** [skippedDays.includes(dayOfWeek)] (line 85), SameValueZero on numbers. *)
Definition includes (l : list number) (x : Z) : bool :=
  existsb (fun n => match n with Int z => (z =? x)%Z | NaN => false end) l.

Record params : Type := mkParams {
  targetYear : Z;
  commitLevel : string;
  skippedDays : list number
}.

(** Lines 41-71 in sequence: year, level, then one line of skip days. *)
Definition collect_params (inp : list line) : option params * list line * list warning :=
  match ask_year inp with
  | (None, rest, ws) => (None, rest, ws)
  | (Some y, rest, ws) =>
      match ask_level rest with
      | (None, rest', ws') => (None, rest', ws ++ ws')
      | (Some lvl, rest', ws') =>
          match rest' with
          | [] => (None, [], ws ++ ws')
          | (skipDaysInput, _) :: rest'' =>
              (Some (mkParams y lvl (parse_skip_days skipDaysInput)), rest'', ws ++ ws')
          end
      end
  end.

(** ** Lemmas *)

Lemma year_rejected_false t cy :
  year_rejected t cy = false <-> exists y, t = Int y /\ (2008 <= y <= cy)%Z.
Proof.
  unfold year_rejected. destruct t as [y|]; simpl.
  - rewrite !orb_false_iff, Z.ltb_ge, Z.ltb_ge. split.
    + intros [H1 H2]. exists y. split; [reflexivity | lia].
    + intros [y' [[= <-] H]]. repeat split; lia.
  - split; [discriminate | intros [y [H _]]; discriminate].
Qed.

(** The year loop returns the first answer that parses to a year of
    [[2008, currentYear]], after one warning per earlier answer. *)
Theorem ask_year_sound inp y rest ws :
  ask_year inp = (Some y, rest, ws) ->
  exists pre yearInput currentYear,
    inp = pre ++ (yearInput, currentYear) :: rest /\
    parse_year yearInput = Int y /\ (2008 <= y <= currentYear)%Z /\
    Forall (fun l => year_rejected (parse_year (fst l)) (snd l) = true) pre /\
    ws = map (fun l => WarnYear (snd l)) pre.
Proof.
  revert ws. induction inp as [|[yi cy] inp IH]; simpl; intros ws H; [discriminate|].
  destruct (year_rejected (parse_year yi) cy) eqn:R.
  - destruct (ask_year inp) as [[r rest'] ws'] eqn:E. injection H as -> -> <-.
    destruct (IH ws' eq_refl) as (pre & yi' & cy' & -> & P & B & F & ->).
    exists ((yi, cy) :: pre), yi', cy'. repeat split; auto; lia.
  - apply year_rejected_false in R as (y' & P & B). rewrite P in H.
    injection H as -> -> <-. exists [], yi, cy. repeat split; auto; lia.
Qed.

(** C12: If some answer is a valid year, the year loop terminates with one. *)
Theorem ask_year_complete inp :
  Exists (fun l => year_rejected (parse_year (fst l)) (snd l) = false) inp ->
  exists y rest ws, ask_year inp = (Some y, rest, ws).
Proof.
  induction 1 as [[yi cy] inp H|[yi cy] inp _ [y [rest [ws IH]]]]; simpl in *.
  - rewrite H. apply year_rejected_false in H as (y & -> & _). eauto.
  - destruct (year_rejected (parse_year yi) cy) eqn:R; [rewrite IH; eauto|].
    apply year_rejected_false in R as (y' & -> & _). eauto.
Qed.

Lemma level_ok_In s : level_ok s = true <-> In s levels.
Proof.
  unfold level_ok. rewrite existsb_exists. split.
  - intros [x [Hx E]]. apply String.eqb_eq in E. now subst.
  - intros H. exists s. split; [exact H | apply String.eqb_refl].
Qed.

(** The level loop returns the lower-cased form of the first answer that
    is one of [low], [medium], [high]. *)
Theorem ask_level_sound inp lvl rest ws :
  ask_level inp = (Some lvl, rest, ws) ->
  In lvl levels /\
  exists pre answer c,
    inp = pre ++ (answer, c) :: rest /\ lvl = toLowerCase answer /\
    Forall (fun l => level_ok (toLowerCase (fst l)) = false) pre /\
    ws = map (fun _ => WarnLevel) pre.
Proof.
  revert ws. induction inp as [|[a c] inp IH]; simpl; intros ws H; [discriminate|].
  destruct (level_ok (toLowerCase a)) eqn:L.
  - injection H as <- -> <-. split; [now apply level_ok_In|].
    exists [], a, c. repeat split; auto.
  - destruct (ask_level inp) as [[r rest'] ws'] eqn:E. injection H as -> -> <-.
    destruct (IH ws' eq_refl) as [Hin (pre & a' & c' & -> & -> & F & ->)].
    split; [exact Hin|]. exists ((a, c) :: pre), a', c'. repeat split; auto.
Qed.

Lemma keep_day_true n :
  keep_day n = true <-> exists d, n = Int d /\ (0 <= d <= 6)%Z.
Proof.
  unfold keep_day. destruct n as [d|]; simpl.
  - rewrite andb_true_iff, Z.leb_le, Z.leb_le. split.
    + intros [H1 H2]. exists d. split; [reflexivity | lia].
    + intros [d' [[= <-] H]]. lia.
  - split; [discriminate | intros [d [H _]]; discriminate].
Qed.

(** Every kept skip day is an integer weekday index. *)
Theorem parse_skip_days_range s :
  Forall (fun n => exists d, n = Int d /\ (0 <= d <= 6)%Z) (parse_skip_days s).
Proof.
  apply Forall_forall. intros n Hn. unfold parse_skip_days in Hn.
  apply filter_In in Hn as [_ K]. now apply keep_day_true.
Qed.

(** C13: A weekday is skipped exactly when it is in [0, 6] and some comma
    separated token of the answer parses to it; every other token is
    dropped without an error. *)
Theorem includes_skip_days s d :
  includes (parse_skip_days s) d = true <->
  (0 <= d <= 6)%Z /\
  exists tok, In tok (split ","%char s) /\ parseInt (trim tok) = Int d.
Proof.
  unfold includes, parse_skip_days. rewrite existsb_exists. split.
  - intros [n [Hn E]]. apply filter_In in Hn as [Hn K].
    apply keep_day_true in K as (d' & -> & R). apply Z.eqb_eq in E. subst d'.
    apply in_map_iff in Hn as (tok & P & T). split; [exact R|]. eauto.
  - intros [R (tok & T & P)]. exists (Int d). split; [|apply Z.eqb_refl].
    apply filter_In. split; [apply in_map_iff; eauto|].
    apply keep_day_true. eauto.
Qed.

(** C11: The parameters handed to the history stage satisfy the invariant of
    RunParameters: a year in [[2008, currentYear]] for the clock when it
    was accepted, a level among [low], [medium], [high], and weekday
    indices in [[0, 6]]. *)
Theorem collect_params_valid inp p rest ws :
  collect_params inp = (Some p, rest, ws) ->
  (exists currentYear, In currentYear (map snd inp) /\
     (2008 <= targetYear p <= currentYear)%Z) /\
  In (commitLevel p) levels /\
  Forall (fun n => exists d, n = Int d /\ (0 <= d <= 6)%Z) (skippedDays p).
Proof.
  unfold collect_params.
  destruct (ask_year inp) as [[[y|] r1] w1] eqn:AY; [|discriminate].
  destruct (ask_level r1) as [[[lvl|] r2] w2] eqn:AL; [|discriminate].
  destruct r2 as [|[sk c] r3]; [discriminate|].
  intros [= <- _ _]. simpl.
  apply ask_year_sound in AY as (pre & yi & cy & -> & _ & B & _).
  apply ask_level_sound in AL as [Hl _].
  split; [|split; [exact Hl | apply parse_skip_days_range]].
  exists cy. split; [|exact B].
  rewrite map_app, in_app_iff. right. left. reflexivity.
Qed.

(** ** The answers the prompts accept *)




(** C14: The year prompt reads only the digit prefix of its answer: an
    answer made of digits followed by anything that does not start with a
    digit ("2024abc", "2024.7", "2024 and more") is the year those digits
    denote, and it is accepted exactly when that year lies in
    [[2008, currentYear]]. *)
Theorem year_digit_prefix_accepted ds rest currentYear :
  forallb is_digit ds = true -> ds <> [] ->
  match rest with [] => True | c :: _ => is_digit c = false end ->
  parse_year (string_of_list_ascii (ds ++ rest)) = Int (digits_value (map digit_val ds)) /\
  (year_rejected (parse_year (string_of_list_ascii (ds ++ rest))) currentYear = false <->
   (2008 <= digits_value (map digit_val ds) <= currentYear)%Z).
Proof.
  intros Hd Hne Hr.
  assert (P : parse_year (string_of_list_ascii (ds ++ rest)) = Int (digits_value (map digit_val ds))).
  { unfold parse_year. destruct (trim_digit_head ds rest Hd Hne Hr) as (rest' & E & Hr').
    rewrite <- (string_of_list_ascii_of_string (trim _)), E.
    exact (parseInt_digits_prefix [] ds rest' eq_refl Hd Hne Hr'). }
  split; [exact P|]. rewrite P, year_rejected_false. split.
  - intros (y & [= <-] & B). exact B.
  - intros B. eexists. split; [reflexivity | exact B].
Qed.

(** ** Witnesses *)

Definition answers0 : list line :=
  [("abc", 2026); ("2030", 2026); (" 2024 ", 2026); ("HIGH", 2026); ("0,6", 2026)]%string%Z.

Lemma collect_params_valid_witness :
  collect_params answers0 = (Some (mkParams 2024 "high"%string [Int 0; Int 6]), [],
                             [WarnYear 2026; WarnYear 2026]) /\
  In (commitLevel (mkParams 2024 "high"%string [Int 0; Int 6])) levels.
Proof.
  split; [reflexivity|].
  exact (proj1 (proj2 (collect_params_valid answers0 _ [] _ eq_refl))).
Defined.

Lemma ask_year_complete_witness :
  Exists (fun l => year_rejected (parse_year (fst l)) (snd l) = false) answers0 /\
  exists y rest ws, ask_year answers0 = (Some y, rest, ws).
Proof.
  assert (H : Exists (fun l => year_rejected (parse_year (fst l)) (snd l) = false) answers0)
    by (right; right; left; reflexivity).
  split; [exact H | exact (ask_year_complete answers0 H)].
Defined.


Lemma year_digit_prefix_accepted_witness :
  forallb is_digit ["2"; "0"; "2"; "4"]%char = true /\ ["2"; "0"; "2"; "4"]%char <> [] /\
  parse_year (string_of_list_ascii (["2"; "0"; "2"; "4"] ++ ["a"; "b"; "c"])%char)
  = Int (digits_value (map digit_val ["2"; "0"; "2"; "4"]%char)).
Proof.
  split; [reflexivity|]. split; [discriminate|].
  exact (proj1 (year_digit_prefix_accepted ["2"; "0"; "2"; "4"]%char ["a"; "b"; "c"]%char 2026
                  eq_refl ltac:(discriminate) eq_refl)).
Defined.

End Params.
