(* ===== verification/Terminal.v ===== *)
(** * The terminal session of the three prompts

    [src/index.js] lines 32-71 as the terminal sees them.  [askQuestion]
    (line 37) is [rl.question(query, resolve)]: it writes [query] and waits
    for one typed line.  The year loop (lines 43-53) and the level loop
    (lines 56-65) ask again after a [console.warn]; the skip-day prompt
    (line 68) is asked once; [rl.close()] (line 71) ends the session.  A
    session is the list of these events, in the order they happen.  When
    the typed lines run out, the last query stays unanswered: the promise
    of [askQuestion] never resolves and [rl.close()] is never reached.

    The theorems show that the queries come in the code's order (year
    queries, then level queries, then the skip-day query once) and that a
    session whose typed lines run out ends on an unanswered query and
    never closes the interface. *)

From Stdlib Require Import ZArith List String Bool Lia.
From S2P Require Import Prelude JsString Params.
Import ListNotations.
Import JsString.

Module Terminal.

Inductive event : Type :=
| Query (q : string)               (** [rl.question(q, ...)] writes [q] (line 37) *)
| Typed (answer : string)          (** the line typed in answer *)
| Warn (w : Params.warning)        (** [console.warn], lines 49 and 63 *)
| Closed.                          (** [rl.close()], line 71 *)

(** The three queries, lines 44, 58 and 68. *)
Definition year_query : string :=
  "Enter the target year for random commits (e.g., 2024): ".
Definition level_query : string :=
  "Choose commit density level (low, medium, high): ".
Definition skip_query : string :=
  "Enter days of the week to skip (0=Sun, 1=Mon,..., 6=Sat, comma-separated, e.g., '0,6' for weekends, or leave empty for no skips): ".

(** Lines 43-53 with their terminal events. *)
Fixpoint year_loop (inp : list Params.line) : option Z * list Params.line * list event :=
  match inp with
  | [] => (None, [], [Query year_query])
  | (yearInput, currentYear) :: rest =>
      let targetYear := Params.parse_year yearInput in
      if Params.year_rejected targetYear currentYear then
        let '(r, rest', evs) := year_loop rest in
        (r, rest', Query year_query :: Typed yearInput :: Warn (Params.WarnYear currentYear) :: evs)
      else match targetYear with
           | Int y => (Some y, rest, [Query year_query; Typed yearInput])
           | NaN => (None, rest, [Query year_query; Typed yearInput])
           end
  end.

(** Lines 56-65 with their terminal events. *)
Fixpoint level_loop (inp : list Params.line) : option string * list Params.line * list event :=
  match inp with
  | [] => (None, [], [Query level_query])
  | (answer, _) :: rest =>
      let levelInput := toLowerCase answer in
      if Params.level_ok levelInput then (Some levelInput, rest, [Query level_query; Typed answer])
      else let '(r, rest', evs) := level_loop rest in
           (r, rest', Query level_query :: Typed answer :: Warn Params.WarnLevel :: evs)
  end.

(** Lines 41-71: the three prompts, then [rl.close()]. *)
Definition session (inp : list Params.line) : option Params.params * list Params.line * list event :=
  match year_loop inp with
  | (None, rest, e1) => (None, rest, e1)
  | (Some y, rest, e1) =>
      match level_loop rest with
      | (None, rest', e2) => (None, rest', e1 ++ e2)
      | (Some lvl, rest', e2) =>
          match rest' with
          | [] => (None, [], e1 ++ e2 ++ [Query skip_query])
          | (skipDaysInput, _) :: rest'' =>
              (Some (Params.mkParams y lvl (Params.parse_skip_days skipDaysInput)), rest'',
               e1 ++ e2 ++ [Query skip_query; Typed skipDaysInput; Closed])
          end
      end
  end.

(** The warnings of a session, and the queries it shows. *)
Definition warnings_of (evs : list event) : list Params.warning :=
  flat_map (fun e => match e with Warn w => [w] | _ => [] end) evs.

Definition queries (evs : list event) : list string :=
  flat_map (fun e => match e with Query q => [q] | _ => [] end) evs.

(** ** Lemmas *)

Lemma warnings_of_app a b : warnings_of (a ++ b) = warnings_of a ++ warnings_of b.
Proof. apply flat_map_app. Qed.

Lemma queries_app a b : queries (a ++ b) = queries a ++ queries b.
Proof. apply flat_map_app. Qed.

#[local] Hint Rewrite warnings_of_app queries_app : gh_rw.

Lemma year_rejected_NaN cy : Params.year_rejected NaN cy = true.
Proof. reflexivity. Qed.

Lemma not_in_closed_app a b : ~ In Closed a -> ~ In Closed b -> ~ In Closed (a ++ b).
Proof. intros Ha Hb H. apply in_app_or in H as [H|H]; contradiction. Qed.

(** A loop that accepts an answer shows its query once per attempt and
    warns once per rejected attempt. *)
Lemma year_loop_some inp y rest evs :
  year_loop inp = (Some y, rest, evs) ->
  queries evs = repeat year_query (S (List.length (warnings_of evs))) /\ ~ In Closed evs.
Proof.
  revert rest evs. induction inp as [|[yi cy] inp IH]; simpl; intros rest evs E; [discriminate|].
  destruct (Params.year_rejected _ _).
  - destruct (year_loop inp) as [[r' rest'] evs'] eqn:Y. injection E as -> <- <-.
    destruct (IH _ _ eq_refl) as [Q C]. simpl. rewrite Q. split; [reflexivity|].
    intros [H|[H|[H|H]]]; try discriminate; contradiction.
  - destruct (Params.parse_year yi); [|discriminate]. injection E as _ <- <-.
    split; [reflexivity|]. intros [H|[H|[]]]; discriminate.
Qed.

Lemma level_loop_some inp lvl rest evs :
  level_loop inp = (Some lvl, rest, evs) ->
  queries evs = repeat level_query (S (List.length (warnings_of evs))) /\ ~ In Closed evs.
Proof.
  revert rest evs. induction inp as [|[a c] inp IH]; simpl; intros rest evs E; [discriminate|].
  destruct (Params.level_ok _).
  - injection E as <- <- <-. split; [reflexivity|]. intros [H|[H|[]]]; discriminate.
  - destruct (level_loop inp) as [[r' rest'] evs'] eqn:Y. injection E as -> <- <-.
    destruct (IH _ _ eq_refl) as [Q C]. simpl. rewrite Q. split; [reflexivity|].
    intros [H|[H|[H|H]]]; try discriminate; contradiction.
Qed.

(** A loop that returns nothing has run out of typed lines: its last
    query is left unanswered. *)
Lemma year_loop_none inp rest evs :
  year_loop inp = (None, rest, evs) ->
  rest = [] /\ (exists pre, evs = pre ++ [Query year_query]) /\ ~ In Closed evs.
Proof.
  revert rest evs. induction inp as [|[yi cy] inp IH]; simpl; intros rest evs E.
  - injection E as <- <-. split; [reflexivity|]. split; [exists []; reflexivity|].
    intros [H|[]]; discriminate.
  - destruct (Params.year_rejected (Params.parse_year yi) cy) eqn:R.
    + destruct (year_loop inp) as [[r' rest'] evs'] eqn:Y. injection E as -> <- <-.
      destruct (IH _ _ eq_refl) as (Hr & [pre Hp] & C). split; [exact Hr|].
      split; [exists (Query year_query :: Typed yi :: Warn (Params.WarnYear cy) :: pre); rewrite Hp; reflexivity|].
      intros [H|[H|[H|H]]]; try discriminate; contradiction.
    + destruct (Params.parse_year yi) eqn:P; [discriminate|].
      rewrite year_rejected_NaN in R. discriminate.
Qed.

Lemma level_loop_none inp rest evs :
  level_loop inp = (None, rest, evs) ->
  rest = [] /\ (exists pre, evs = pre ++ [Query level_query]) /\ ~ In Closed evs.
Proof.
  revert rest evs. induction inp as [|[a c] inp IH]; simpl; intros rest evs E.
  - injection E as <- <-. split; [reflexivity|]. split; [exists []; reflexivity|].
    intros [H|[]]; discriminate.
  - destruct (Params.level_ok _); [discriminate|].
    destruct (level_loop inp) as [[r' rest'] evs'] eqn:Y. injection E as -> <- <-.
    destruct (IH _ _ eq_refl) as (Hr & [pre Hp] & C). split; [exact Hr|].
    split; [exists (Query level_query :: Typed a :: Warn Params.WarnLevel :: pre); rewrite Hp; reflexivity|].
    intros [H|[H|[H|H]]]; try discriminate; contradiction.
Qed.

(** ** The session *)

(** C29: When the session produces parameters, the queries appear in the
    order of the code: the year query once per year attempt, then the
    level query once per level attempt, then the skip-day query once; the
    warnings are one per repeated query; and the session ends with
    [rl.close()], which happens nowhere else. *)
Theorem session_prompt_order inp p rest evs :
  session inp = (Some p, rest, evs) ->
  exists a b,
    queries evs = repeat year_query (S a) ++ repeat level_query (S b) ++ [skip_query] /\
    List.length (warnings_of evs) = (a + b)%nat /\
    exists pre, evs = pre ++ [Closed] /\ ~ In Closed pre.
Proof.
  unfold session. intros E.
  destruct (year_loop inp) as [[[y|] r1] e1] eqn:Y; [|discriminate].
  destruct (level_loop r1) as [[[lvl|] r2] e2] eqn:L; [|discriminate].
  destruct r2 as [|[sk c] r3]; [discriminate|]. injection E as _ _ <-.
  destruct (year_loop_some _ _ _ _ Y) as [Q1 C1].
  destruct (level_loop_some _ _ _ _ L) as [Q2 C2].
  exists (List.length (warnings_of e1)), (List.length (warnings_of e2)).
  split; [rewrite !queries_app, Q1, Q2; reflexivity|].
  split; [rewrite !warnings_of_app, !length_app; simpl; lia|].
  exists (e1 ++ e2 ++ [Query skip_query; Typed sk]). split.
  - rewrite <- !app_assoc. reflexivity.
  - repeat apply not_in_closed_app; auto. intros [H|[H|[]]]; discriminate.
Qed.

(** C30: When the typed lines run out before the three answers are in,
    the session ends on a query nobody answers: no line is left, the last
    event is that query, and [rl.close()] never happens; nothing after the
    prompts runs. *)
Theorem session_exhausted inp rest evs :
  session inp = (None, rest, evs) ->
  rest = [] /\ (exists pre q, evs = pre ++ [Query q]) /\ ~ In Closed evs.
Proof.
  unfold session. intros E.
  destruct (year_loop inp) as [[[y|] r1] e1] eqn:Y.
  2: { injection E as <- <-. destruct (year_loop_none _ _ _ Y) as (Hr & [pre Hp] & C).
       split; [exact Hr|]. split; [exists pre, year_query; exact Hp|exact C]. }
  destruct (year_loop_some _ _ _ _ Y) as [_ C1].
  destruct (level_loop r1) as [[[lvl|] r2] e2] eqn:L.
  2: { injection E as <- <-. destruct (level_loop_none _ _ _ L) as (Hr & [pre Hp] & C).
       split; [exact Hr|]. split; [exists (e1 ++ pre), level_query; rewrite Hp, app_assoc; reflexivity|].
       now apply not_in_closed_app. }
  destruct (level_loop_some _ _ _ _ L) as [_ C2].
  destruct r2 as [|[sk c] r3]; [|discriminate]. injection E as <- <-.
  split; [reflexivity|]. split; [exists (e1 ++ e2), skip_query; now rewrite app_assoc|].
  repeat apply not_in_closed_app; auto. intros [H|[]]; discriminate.
Qed.

(** ** Witnesses *)

(** A year before 2008, then 2023; a level with a trailing space, then
    [Low]; then the weekends. *)
Definition typed0 : list Params.line :=
  [("2007", 2026); ("2023", 2026); ("LOW ", 2026); ("Low", 2026); ("0,6", 2026)]%string%Z.

Definition params0 : Params.params := Params.mkParams 2023 "low" [Int 0; Int 6].

Definition events0 : list event :=
  [Query year_query; Typed "2007"; Warn (Params.WarnYear 2026); Query year_query; Typed "2023";
   Query level_query; Typed "LOW "; Warn Params.WarnLevel; Query level_query; Typed "Low";
   Query skip_query; Typed "0,6"; Closed]%string%Z.

Lemma session_prompt_order_witness :
  session typed0 = (Some params0, [], events0) /\
  exists a b, queries events0 = repeat year_query (S a) ++ repeat level_query (S b) ++ [skip_query].
Proof.
  assert (E : session typed0 = (Some params0, [], events0)) by reflexivity.
  split; [exact E|].
  destruct (session_prompt_order _ _ _ _ E) as (a & b & Q & _). exists a, b. exact Q.
Defined.

Lemma session_exhausted_witness :
  session [("abc", 2026)]%string%Z = (None, [], [Query year_query; Typed "abc";
                                             Warn (Params.WarnYear 2026); Query year_query])%string /\
  ~ In Closed [Query year_query; Typed "abc"; Warn (Params.WarnYear 2026); Query year_query]%string.
Proof.
  assert (E : session [("abc", 2026)]%string%Z = (None, [], [Query year_query; Typed "abc";
                 Warn (Params.WarnYear 2026); Query year_query])%string) by reflexivity.
  split; [exact E | exact (proj2 (proj2 (session_exhausted _ _ _ E)))].
Defined.

End Terminal.
