(* ===== verification/Density.v ===== *)
(** * Commit density: the [switch (commitLevel)] of [generateHistory]

    [src/index.js] lines 91-105.  The level is the string the level prompt
    accepted; [switch] compares it with [===].  The abstract view is the
    table of the specification (Low 0-2, Medium 1-5, High 3-10), and
    [numberOfCommitsToday_refines] shows that the switch implements it on
    every level the prompt can accept. *)

From Stdlib Require Import ZArith QArith List String Bool Lia.
From S2P Require Import Prelude Random Params.
Import ListNotations.
Import Random.

Module Density.

(** [switch (commitLevel) { case 'low': ... default: 1 }] *)
Definition numberOfCommitsToday (commitLevel : string) : St rng Z :=
  if String.eqb commitLevel "low" then getRandomIntZ 0 2
  else if String.eqb commitLevel "medium" then getRandomIntZ 1 5
  else if String.eqb commitLevel "high" then getRandomIntZ 3 10
  else ret 1%Z.

(** The density levels of the specification and their ranges. *)
Inductive level : Type := Low | Medium | High.

Definition level_range (l : level) : Z * Z :=
  match l with
  | Low => (0, 2)
  | Medium => (1, 5)
  | High => (3, 10)
  end%Z.

Definition level_of_string (s : string) : option level :=
  if String.eqb s "low" then Some Low
  else if String.eqb s "medium" then Some Medium
  else if String.eqb s "high" then Some High
  else None.

(** The abstract sampler: one draw in the level's range. *)
Definition sample (l : level) : St rng Z :=
  getRandomIntZ (fst (level_range l)) (snd (level_range l)).

Lemma level_of_string_ok s :
  Params.level_ok s = true <-> exists l, level_of_string s = Some l.
Proof.
  rewrite Params.level_ok_In. unfold level_of_string. simpl.
  destruct (String.eqb_spec s "low") as [->|N1]; [split; eauto|].
  destruct (String.eqb_spec s "medium") as [->|N2]; [split; eauto|].
  destruct (String.eqb_spec s "high") as [->|N3]; [split; eauto|].
  split; [intros [E|[E|[E|[]]]]; congruence | intros [l H]; discriminate].
Qed.

(** C9: On every level the prompt accepts, the switch is the abstract sampler
    of that level. *)
Theorem numberOfCommitsToday_refines s l :
  level_of_string s = Some l -> numberOfCommitsToday s = sample l.
Proof.
  unfold level_of_string, numberOfCommitsToday, sample.
  destruct (String.eqb s "low"); [intros [= <-]; reflexivity|].
  destruct (String.eqb s "medium"); [intros [= <-]; reflexivity|].
  destruct (String.eqb s "high"); [intros [= <-]; reflexivity|].
  discriminate.
Qed.

(** The number of commits drawn for an accepted level lies in the level's
    inclusive range, and exactly one draw is consumed. *)
Lemma numberOfCommitsToday_bounds s l g :
  rng_ok g -> level_of_string s = Some l ->
  (fst (level_range l) <= fst (numberOfCommitsToday s g) <= snd (level_range l))%Z /\
  snd (numberOfCommitsToday s g) = mkRng (draws g) (S (pos g)).
Proof.
  intros Hg. unfold level_of_string, numberOfCommitsToday.
  destruct (String.eqb s "low"); [intros [= <-]|].
  { split; [apply getRandomIntZ_bounds; simpl; auto; lia | reflexivity]. }
  destruct (String.eqb s "medium"); [intros [= <-]|].
  { split; [apply getRandomIntZ_bounds; simpl; auto; lia | reflexivity]. }
  destruct (String.eqb s "high"); [intros [= <-]|]; [|discriminate].
  split; [apply getRandomIntZ_bounds; simpl; auto; lia | reflexivity].
Qed.

(** C10: The [default] branch is the only way the switch returns without
    drawing: [numberOfCommitsToday s] returns one commit and leaves the
    generator as it was, on every generator, exactly when [s] is a string
    the level prompt never accepts; on every accepted level one draw is
    consumed. *)
Theorem numberOfCommitsToday_default s :
  (forall g, numberOfCommitsToday s g = (1%Z, g)) <-> Params.level_ok s = false.
Proof.
  split.
  - intros H. destruct (Params.level_ok s) eqn:L; [|reflexivity].
    destruct (proj1 (level_of_string_ok s) L) as [l Hl].
    destruct (numberOfCommitsToday_bounds s l rng_last rng_last_ok Hl) as [_ E].
    rewrite H in E. discriminate E.
  - intros H g. unfold Params.level_ok in H. simpl in H.
    unfold numberOfCommitsToday.
    destruct (String.eqb s "low"), (String.eqb s "medium"), (String.eqb s "high");
      simpl in H; try discriminate; reflexivity.
Qed.

(** ** Witnesses *)

Lemma numberOfCommitsToday_refines_witness :
  level_of_string "high" = Some High /\ numberOfCommitsToday "high" = sample High.
Proof. split; [reflexivity | exact (numberOfCommitsToday_refines "high" High eq_refl)]. Defined.

Lemma numberOfCommitsToday_default_witness :
  Params.level_ok "LOW" = false /\ numberOfCommitsToday "LOW" rng_last = (1%Z, rng_last).
Proof.
  split; [reflexivity | exact (proj2 (numberOfCommitsToday_default "LOW") eq_refl rng_last)].
Defined.

End Density.
