(* ===== verification/Git.v ===== *)
(** * Commit emission: [makeCommitWithDate] and the version-control collaborator

    [src/index.js] lines 14-27:
<<
    const makeCommitWithDate = async (dateString, message) => {
      const data = { date: dateString };
      console.log(`Attempting to commit: ...`);
      try {
        await jsonfile.writeFile(path, data);
        await simpleGit().add([path]).commit(message, { '--date': dateString });
        console.log(`Successfully committed: ...`);
      } catch (err) { console.error(`Error processing commit ...`, err); }
    };
>>
    The collaborator ([jsonfile], [simple-git] and the repository behind
    them) is the typeclass [Backend]: each operation returns the new
    backend state or an error.  [BackendLaws] states what the script relies
    on: only a successful commit extends the history, by exactly one
    commit carrying the given message and date.  The client theorems are
    proved against the laws; [Repo] is a model repository (working tree,
    index and HEAD as stdpp maps) that satisfies them, where a commit fails
    when the index equals HEAD ("nothing to commit") and [add] fails on a
    missing path.  [simple-git] runs the chained [commit] only if [add]
    succeeded. *)

From Stdlib Require Import ZArith List String Ascii Bool Lia.
From S2P Require Import Prelude.
From stdpp Require Import base gmap strings.
Import ListNotations.
Open Scope gh_scope.

Module Git.

Inductive error : Type :=
| WriteError     (** jsonfile.writeFile rejected *)
| StagingError   (** git add rejected *)
| CommitError    (** git commit rejected *)
| PushError.     (** git push rejected *)

Inductive result (R : Type) : Type :=
| Ok (r : R)
| Err (e : error).
Arguments Ok {R} r.
Arguments Err {R} e.

(** A commit as the history records it: message and author date. *)
Definition commit_info : Type := (string * string)%type.

Class Backend (R : Type) := {
  write_file : string -> string -> R -> result R;      (** jsonfile.writeFile *)
  git_add : list string -> R -> result R;              (** simpleGit().add *)
  git_commit : string -> string -> R -> result R;      (** .commit(msg, {'--date': d}) *)
  git_push : R -> result R;                            (** git.push *)
  history : R -> list commit_info
}.

Class BackendLaws (R : Type) `{Backend R} := {
  write_file_history p c r r' : write_file p c r = Ok r' -> history r' = history r;
  git_add_history ps r r' : git_add ps r = Ok r' -> history r' = history r;
  git_commit_history m d r r' :
    git_commit m d r = Ok r' -> history r' = history r ++ [(m, d)];
  git_push_history r r' : git_push r = Ok r' -> history r' = history r
}.

(** Console lines of the script, in the order printed. *)
Inductive output : Type :=
| Options                                              (** line 39 *)
| Attempting (message dateString : string)            (** line 18 *)
| Committed (message dateString : string)             (** line 23 *)
| CommitFailed (message dateString : string) (e : error)  (** line 25 *)
| Generating (level : string) (year : Z)               (** line 73 *)
| Skipping (day : string) (dayOfWeek : Z)              (** line 86 *)
| Finished (level : string) (year : Z)                 (** line 117 *)
| Pushing                                              (** line 119 *)
| PushFailed (e : error)                               (** line 121 *)
| Pushed                                               (** line 122 *)
| Complete.                                            (** line 126 *)

Record gstate (R : Type) : Type := mkG { repo : R; out : list output }.
Arguments mkG {R} repo out.
Arguments repo {R} g.
Arguments out {R} g.

Definition say {R} (o : output) : St (gstate R) unit :=
  fun g => (tt, mkG (repo g) (out g ++ [o])).

(** ** The marker file *)

(** [const path = "./data.json"] (line 6) *)
Definition path : string := "./data.json".

Definition dq : ascii := "034"%char.
Definition bs : ascii := "092"%char.

Definition hex_digit (n : nat) : ascii :=
  if (n <? 10)%nat then ascii_of_nat (48 + n) else ascii_of_nat (87 + n).

(** JSON.stringify's escaping of one code unit below 256. *)
Definition json_escape_char (c : ascii) : list ascii :=
  let n := nat_of_ascii c in
  if (n =? 34)%nat then [bs; dq]
  else if (n =? 92)%nat then [bs; bs]
  else if (n =? 8)%nat then [bs; "b"%char]
  else if (n =? 9)%nat then [bs; "t"%char]
  else if (n =? 10)%nat then [bs; "n"%char]
  else if (n =? 12)%nat then [bs; "f"%char]
  else if (n =? 13)%nat then [bs; "r"%char]
  else if (n <? 32)%nat then
    [bs; "u"%char; "0"%char; "0"%char; hex_digit (n / 16); hex_digit (n mod 16)]
  else [c].

Definition json_escape (l : list ascii) : list ascii := flat_map json_escape_char l.

(** [jsonfile.writeFile(path, { date: dateString })] writes
    [JSON.stringify(data) + '\n']. *)
Definition marker_content_list (dateString : string) : list ascii :=
  ["{"%char; dq; "d"%char; "a"%char; "t"%char; "e"%char; dq; ":"%char; dq]
  ++ json_escape (list_ascii_of_string dateString) ++ [dq; "}"%char; "010"%char].

Definition marker_content (dateString : string) : string :=
  string_of_list_ascii (marker_content_list dateString).

(** ** [makeCommitWithDate] *)

Section Client.
Context {R : Type} `{Backend R}.

Definition makeCommitWithDate (dateString message : string) : St (gstate R) unit :=
  say (Attempting message dateString) ;;
  fun g =>
    match write_file path (marker_content dateString) (repo g) with
    | Err e => (tt, mkG (repo g) (out g ++ [CommitFailed message dateString e]))
    | Ok r1 =>
        match git_add [path] r1 with
        | Err e => (tt, mkG r1 (out g ++ [CommitFailed message dateString e]))
        | Ok r2 =>
            match git_commit message dateString r2 with
            | Err e => (tt, mkG r2 (out g ++ [CommitFailed message dateString e]))
            | Ok r3 => (tt, mkG r3 (out g ++ [Committed message dateString]))
            end
        end
    end.

(** Every call prints [Attempting] and then exactly one outcome line; on
    success the history grows by exactly the commit asked for, on any
    failure it is unchanged and the error is reported, never raised. *)
Theorem makeCommitWithDate_spec `{!BackendLaws R} dateString message g :
  let g' := snd (makeCommitWithDate dateString message g) in
  exists o, out g' = out g ++ [Attempting message dateString; o] /\
    ((o = Committed message dateString /\
      history (repo g') = history (repo g) ++ [(message, dateString)]) \/
     (exists e, o = CommitFailed message dateString e /\
      history (repo g') = history (repo g))).
Proof.
  unfold makeCommitWithDate, say, bind. cbn [fst snd repo out].
  destruct (write_file _ _ _) as [r1|e] eqn:W; cbn [fst snd repo out].
  - apply write_file_history in W.
    destruct (git_add _ _) as [r2|e] eqn:A; cbn [fst snd repo out].
    + apply git_add_history in A.
      destruct (git_commit _ _ _) as [r3|e] eqn:C; cbn [fst snd repo out].
      * apply git_commit_history in C. eexists. rewrite <- app_assoc.
        split; [reflexivity|]. left. split; [reflexivity|]. congruence.
      * eexists. rewrite <- app_assoc. split; [reflexivity|]. right. eexists.
        split; [reflexivity|]. congruence.
    + eexists. rewrite <- app_assoc. split; [reflexivity|]. right. eexists.
      split; [reflexivity|]. congruence.
  - eexists. rewrite <- app_assoc. split; [reflexivity|]. right. eexists.
    split; reflexivity.
Qed.

End Client.

(** ** A model repository *)

Module Repo.

Record store : Type := mkStore {
  worktree : gmap string string;
  index : gmap string string;
  head : gmap string string;
  commits : list commit_info;
  upstream : list commit_info;
  disk_ok : bool;
  remote_ok : bool
}.

Definition write (p c : string) (r : store) : result store :=
  if disk_ok r then
    Ok (mkStore (<[p := c]> (worktree r)) (index r) (head r) (commits r)
               (upstream r) (disk_ok r) (remote_ok r))
  else Err WriteError.

(** [git add p]: stage the working-tree content of [p]; a missing path is
    an error. *)
Fixpoint add (ps : list string) (r : store) : result store :=
  match ps with
  | [] => Ok r
  | p :: ps' =>
      match worktree r !! p with
      | Some c => add ps' (mkStore (worktree r) (<[p := c]> (index r)) (head r)
                                  (commits r) (upstream r) (disk_ok r) (remote_ok r))
      | None => Err StagingError
      end
  end.

(** [git commit]: refused when the index equals HEAD ("nothing to commit"). *)
Definition commit (m d : string) (r : store) : result store :=
  if decide (index r = head r) then Err CommitError
  else Ok (mkStore (worktree r) (index r) (index r) (commits r ++ [(m, d)])
                  (upstream r) (disk_ok r) (remote_ok r)).

Definition push (r : store) : result store :=
  if remote_ok r then
    Ok (mkStore (worktree r) (index r) (head r) (commits r) (commits r)
               (disk_ok r) (remote_ok r))
  else Err PushError.

(** An empty repository on a writable disk with a reachable remote. *)
Definition initial_store : store := mkStore ∅ ∅ ∅ [] [] true true.

#[export] Instance store_backend : Backend store := {
  write_file := write;
  git_add := add;
  git_commit := commit;
  git_push := push;
  history := commits
}.

Lemma add_commits ps r r' : add ps r = Ok r' -> commits r' = commits r.
Proof.
  revert r. induction ps as [|p ps IH]; simpl; intros r H; [congruence|].
  destruct (worktree r !! p); [apply IH in H; exact H | discriminate].
Qed.

#[export] Instance store_laws : BackendLaws store.
Proof.
  constructor; simpl.
  - intros p c r r'. unfold write. destruct (disk_ok r); intros H; [|discriminate].
    injection H as <-. reflexivity.
  - apply add_commits.
  - intros m d r r'. unfold commit. case_decide; intros H'; [discriminate|].
    injection H' as <-. reflexivity.
  - intros r r'. unfold push. destruct (remote_ok r); intros H; [|discriminate].
    injection H as <-. reflexivity.
Qed.

(** The repository after one [makeCommitWithDate d] on a writable disk:
    the marker holds [d]'s content in the tree and the index, and HEAD
    equals the index whether the commit went through or not. *)
Lemma makeCommit_synced d m (g : gstate store) :
  disk_ok (repo g) = true ->
  let r := repo (snd (makeCommitWithDate d m g)) in
  worktree r !! path = Some (marker_content d) /\
  index r !! path = Some (marker_content d) /\ index r = head r /\ disk_ok r = true.
Proof.
  intros Hd. unfold makeCommitWithDate, say, bind. simpl. unfold write. rewrite Hd.
  simpl. rewrite lookup_insert_eq. simpl. unfold commit. simpl.
  case_decide as E; simpl; rewrite !lookup_insert_eq; auto.
Qed.

(** C4: A second commit with the same timestamp always fails with
    "nothing to commit": the marker file is rewritten with the same
    content, so nothing changes in the index. *)
Theorem same_timestamp_commit_fails d m m' (g : gstate store) :
  disk_ok (repo g) = true ->
  let g1 := snd (makeCommitWithDate d m g) in
  let g2 := snd (makeCommitWithDate d m' g1) in
  out g2 = out g1 ++ [Attempting m' d; CommitFailed m' d CommitError] /\
  commits (repo g2) = commits (repo g1).
Proof.
  intros Hd. cbv zeta.
  destruct (makeCommit_synced d m g Hd) as (W & I & E & D).
  revert W I E D. generalize (snd (makeCommitWithDate d m g)) as g1.
  intros [r o] W I E D. simpl in *.
  unfold makeCommitWithDate, say, bind. simpl. unfold write. rewrite D. simpl.
  rewrite lookup_insert_eq. simpl. unfold commit. simpl.
  rewrite (insert_id (index r)) by exact I.
  case_decide; [|contradiction]. simpl. rewrite <- app_assoc. auto.
Qed.

(** C19: A commit whose marker content differs from HEAD's goes through. *)
Lemma makeCommit_new_content d m (g : gstate store) :
  disk_ok (repo g) = true -> head (repo g) !! path <> Some (marker_content d) ->
  out (snd (makeCommitWithDate d m g)) = out g ++ [Attempting m d; Committed m d] /\
  commits (repo (snd (makeCommitWithDate d m g))) = commits (repo g) ++ [(m, d)].
Proof.
  intros Hd Hh. unfold makeCommitWithDate, say, bind. simpl. unfold write. rewrite Hd.
  simpl. rewrite lookup_insert_eq. simpl. unfold commit. simpl.
  case_decide as E.
  - exfalso. apply Hh. rewrite <- E. apply lookup_insert_eq.
  - simpl. rewrite <- app_assoc. auto.
Qed.

(** ** Witnesses *)

Definition g0 : gstate store := mkG initial_store [].

Lemma same_timestamp_commit_fails_witness :
  disk_ok (repo g0) = true /\
  commits (repo (snd (makeCommitWithDate "2023-01-02T00:00:00+01:00" "a"
                        (snd (makeCommitWithDate "2023-01-02T00:00:00+01:00" "b" g0)))))
  = commits (repo (snd (makeCommitWithDate "2023-01-02T00:00:00+01:00" "b" g0))).
Proof.
  split; [reflexivity|].
  exact (proj2 (same_timestamp_commit_fails "2023-01-02T00:00:00+01:00" "b" "a" g0 eq_refl)).
Defined.

Lemma makeCommit_new_content_witness :
  disk_ok (repo g0) = true /\
  head (repo g0) !! path <> Some (marker_content "2023-01-02T00:00:00+01:00") /\
  commits (repo (snd (makeCommitWithDate "2023-01-02T00:00:00+01:00" "b" g0)))
  = commits (repo g0) ++ [("b", "2023-01-02T00:00:00+01:00")].
Proof.
  assert (Hh : head (repo g0) !! path <> Some (marker_content "2023-01-02T00:00:00+01:00"))
    by discriminate.
  split; [reflexivity|]. split; [exact Hh|].
  exact (proj2 (makeCommit_new_content _ "b" g0 eq_refl Hh)).
Defined.

End Repo.

End Git.
