(* ===== verification/History.v ===== *)
(** * History synthesis: the day loop, the commit loop and the push

    [src/index.js] lines 73-126.  The state is a [world]: the [Math.random]
    generator and the version-control state with the console lines.
    [day_loop] is the [while (currentDate.isSameOrBefore(endDate, 'day'))]
    loop with a fuel bound (one iteration per day, at most 366 per year,
    [year_fuel]); [process_day] is its body, [commit_loop] the inner
    [for] loop, [commit_time] the random time of one commit, and
    [synthesize] the whole stage from the "Generating" banner to the final
    "complete" line.  [generateHistory] composes it with the parameter
    prompts.  The UTC offset of the local clock is the section variable
    [utc_offset]. *)

From Stdlib Require Import ZArith QArith List String Ascii Bool Lia Sorted.
From S2P Require Import Prelude JsString Calendar Timestamp Random Params Density Git.
Import ListNotations.
Import Calendar Timestamp Random Git.
Open Scope gh_scope.

Module History.

Record world (R : Type) : Type := mkW { gen : rng; git : gstate R }.
Arguments mkW {R} gen git.
Arguments gen {R} w.
Arguments git {R} w.

(** [const commitMessage = "Random activity"] (line 79) *)
Definition commitMessage : string := "Random activity".

(** One iteration per day; a year has at most 366 days. *)
Definition year_fuel : nat := 366.

(** [currentDate.format('YYYY-MM-DD')] *)
Definition day_string (d : date) : string :=
  string_of_list_ascii (pad 4 (year d) ++ "-"%char :: pad 2 (month d) ++ "-"%char :: pad 2 (day d)).

Section Synthesis.
Context {R : Type} `{Backend R}.
Variable utc_offset : Z.

Definition on_gen {A} (m : St rng A) : St (world R) A :=
  zoom gen (fun g w => mkW g (git w)) m.

Definition on_git {A} (m : St (gstate R) A) : St (world R) A :=
  zoom git (fun g w => mkW (gen w) g) m.

(** Lines 108-112: [currentDate.clone().hour(h).minute(m).second(s).format()],
    the three draws taken in that order. *)
Definition commit_time (d : date) : St (world R) string :=
  h <- on_gen (getRandomIntZ 0 23) ;;
  mi <- on_gen (getRandomIntZ 0 59) ;;
  s <- on_gen (getRandomIntZ 0 59) ;;
  ret (format utc_offset (set_second s (set_minute mi (set_hour h (start_of_day d))))).

(** Lines 107-114: [for (let i = 0; i < numberOfCommitsToday; i++)]. *)
Definition commit_one (d : date) : St (world R) unit :=
  commitTime <- commit_time d ;;
  on_git (makeCommitWithDate commitTime commitMessage).

Definition commit_loop (n : Z) (d : date) : St (world R) unit :=
  repeatM (Z.to_nat n) (commit_one d).

(** The loop body, lines 82-115. *)
Definition process_day (p : Params.params) (d : date) : St (world R) unit :=
  let dayOfWeek := weekday d in
  if Params.includes (Params.skippedDays p) dayOfWeek then
    on_git (say (Skipping (day_string d) dayOfWeek))
  else
    n <- on_gen (Density.numberOfCommitsToday (Params.commitLevel p)) ;;
    commit_loop n d.

(** Lines 81-116. *)
Fixpoint day_loop (p : Params.params) (fuel : nat) (cur stop : date) : St (world R) unit :=
  match fuel with
  | O => ret tt
  | S f =>
      if is_same_or_before_day cur stop
      then process_day p cur ;; day_loop p f (next_day cur) stop
      else ret tt
  end.

(** Lines 120-124: the callback of [git.push] logs the outcome. *)
Definition push_step : St (gstate R) unit :=
  fun g =>
    match git_push (repo g) with
    | Err e => (tt, mkG (repo g) (out g ++ [PushFailed e]))
    | Ok r => (tt, mkG r (out g ++ [Pushed]))
    end.

(** Lines 73-126. *)
Definition synthesize (p : Params.params) : St (world R) unit :=
  let y := Params.targetYear p in
  let lvl := Params.commitLevel p in
  on_git (say (Generating lvl y)) ;;
  day_loop p year_fuel (jan1 y) (dec31 y) ;;
  on_git (say (Finished lvl y)) ;;
  on_git (say Pushing) ;;
  on_git push_step ;;
  on_git (say Complete).

(** [generateHistory] (lines 29-127): the options banner, the prompts,
    then the synthesis.  The prompts' warnings go to stderr
    ([console.warn]) and are returned by [Params.collect_params].  When the
    answers run out before the three parameters are known, the prompt never
    resolves and nothing else happens. *)
Definition generateHistory (inp : list Params.line) : St (world R) unit :=
  on_git (say Options) ;;
  match Params.collect_params inp with
  | (Some p, _, _) => synthesize p
  | (None, _, _) => ret tt
  end.

(** ** Specification of the outputs *)

(** Commits recorded by the console lines: one per [Committed] line. *)
Definition committed (os : list output) : list commit_info :=
  flat_map (fun o => match o with Committed m d => [(m, d)] | _ => [] end) os.

(** The two lines of one commit attempt at a random time of day [d]. *)
Definition commit_trace (d : date) (os : list output) : Prop :=
  exists h mi s, (0 <= h <= 23 /\ 0 <= mi <= 59 /\ 0 <= s <= 59)%Z /\
    let ts := format utc_offset (mkMoment d h mi s) in
    (os = [Attempting commitMessage ts; Committed commitMessage ts] \/
     exists e, os = [Attempting commitMessage ts; CommitFailed commitMessage ts e]).

(** What one day contributes to the console: a skip notice, or a number
    of commit attempts within the level's range. *)
Inductive day_spec (p : Params.params) (d : date) : list output -> Prop :=
| day_skipped :
    Params.includes (Params.skippedDays p) (weekday d) = true ->
    day_spec p d [Skipping (day_string d) (weekday d)]
| day_active l traces :
    Params.includes (Params.skippedDays p) (weekday d) = false ->
    Density.level_of_string (Params.commitLevel p) = Some l ->
    (fst (Density.level_range l) <= Z.of_nat (List.length traces)
     <= snd (Density.level_range l))%Z ->
    Forall (commit_trace d) traces ->
    day_spec p d (List.concat traces).

(** ** The loop is a traversal *)

Lemma day_loop_forM p fuel cur stop w :
  day_loop p fuel cur stop w = forM_ (traverse fuel cur stop) (process_day p) w.
Proof.
  revert cur w. induction fuel as [|f IH]; intros cur w; [reflexivity|]. simpl.
  destruct (is_same_or_before_day cur stop); [|reflexivity].
  simpl. unfold bind. destruct (process_day p cur w). apply IH.
Qed.

(** ** One commit *)

Lemma commit_time_spec d w :
  rng_ok (gen w) ->
  exists h mi s, (0 <= h <= 23 /\ 0 <= mi <= 59 /\ 0 <= s <= 59)%Z /\
    commit_time d w = (format utc_offset (mkMoment d h mi s),
                       mkW (mkRng (draws (gen w)) (3 + pos (gen w))) (git w)).
Proof.
  intros Hg. destruct w as [g gs]. cbn [gen git] in *.
  unfold commit_time, on_gen, zoom, bind, ret. cbn [gen git].
  destruct (getRandomIntZ_spec 0 23 g Hg ltac:(lia)) as (h & Bh & ->).
  cbv beta iota zeta. cbn [gen git].
  destruct (getRandomIntZ_spec 0 59 _ (rng_ok_advance g (S (pos g)) Hg) ltac:(lia)) as (mi & Bm & ->).
  cbv beta iota zeta. cbn [gen git draws pos].
  destruct (getRandomIntZ_spec 0 59 _ (rng_ok_advance g (S (S (pos g))) Hg) ltac:(lia)) as (s & Bs & ->).
  cbv beta iota zeta. cbn [gen git draws pos].
  exists h, mi, s. split; [lia | reflexivity].
Qed.

(** C24: Every commit date the script passes to [git commit --date] is a
    well-formed ISO 8601 time on the day being processed: [parse_iso]
    reads it back as that date at an hour, minute and second within range
    and the clock's UTC offset (for four-digit years and offsets below 100
    hours). *)
Theorem commit_time_on_day d w :
  valid_date d = true -> (0 <= year d < 10000)%Z -> (Z.abs utc_offset < 6000)%Z ->
  rng_ok (gen w) ->
  exists h mi s, (0 <= h <= 23 /\ 0 <= mi <= 59 /\ 0 <= s <= 59)%Z /\
    parse_iso (list_ascii_of_string (fst (commit_time d w)))
    = Some (mkMoment d h mi s, utc_offset).
Proof.
  intros V Y O Hg. destruct (commit_time_spec d w Hg) as (h & mi & s & B & ->).
  exists h, mi, s. split; [exact B|]. cbn [fst]. unfold format.
  rewrite list_ascii_of_string_of_list_ascii. apply parse_format_list.
  apply printable_day; tauto.
Qed.

Context `{!BackendLaws R}.

(** [w'] follows [w] by printing [new]: the history grew by exactly the
    commits the [Committed] lines of [new] report, and the generator kept
    its sequence of draws. *)
Definition step_ok (w w' : world R) (new : list output) : Prop :=
  out (git w') = out (git w) ++ new /\
  history (repo (git w')) = history (repo (git w)) ++ committed new /\
  draws (gen w') = draws (gen w).

Lemma committed_app a b : committed (a ++ b) = committed a ++ committed b.
Proof. apply flat_map_app. Qed.

Lemma step_ok_refl w : step_ok w w [].
Proof. unfold step_ok. simpl. now rewrite !app_nil_r. Qed.

Lemma step_ok_trans w1 w2 w3 a b :
  step_ok w1 w2 a -> step_ok w2 w3 b -> step_ok w1 w3 (a ++ b).
Proof.
  intros (O1 & H1 & D1) (O2 & H2 & D2). unfold step_ok.
  rewrite O2, O1, H2, H1, D2, D1, committed_app, !app_assoc. auto.
Qed.

Lemma rng_ok_step w w' new : step_ok w w' new -> rng_ok (gen w) -> rng_ok (gen w').
Proof. intros (_ & _ & D) Hg i. rewrite D. apply Hg. Qed.

Lemma step_ok_say w o :
  (forall m d, o <> Committed m d) -> step_ok w (snd (on_git (say o) w)) [o].
Proof.
  intros No. unfold step_ok, on_git, zoom, say. simpl. split; [reflexivity|split; [|reflexivity]].
  destruct o; simpl; try now rewrite app_nil_r. exfalso. eapply No. reflexivity.
Qed.

Lemma commit_one_spec d w :
  rng_ok (gen w) ->
  exists tr, commit_trace d tr /\ step_ok w (snd (commit_one d w)) tr.
Proof.
  intros Hg. unfold commit_one, bind.
  destruct (commit_time_spec d w Hg) as (h & mi & s & B & ->).
  unfold on_git, zoom. simpl.
  set (ts := format utc_offset (mkMoment d h mi s)).
  destruct (makeCommitWithDate_spec ts commitMessage (git w)) as (o & Ho & Hr).
  destruct (makeCommitWithDate ts commitMessage (git w)) as [[] g'] eqn:E. simpl in *.
  exists [Attempting commitMessage ts; o]. split; [|split; [exact Ho|split; [|reflexivity]]].
  - exists h, mi, s. split; [exact B|]. destruct Hr as [[-> _]|[e [-> _]]]; eauto.
  - cbn [git gen fst snd]. destruct Hr as [[-> Hh]|[e [-> Hh]]]; rewrite Hh; simpl; [reflexivity|].
    now rewrite app_nil_r.
Qed.

(** The inner [for] loop makes exactly [k] attempts on day [d]. *)
Lemma commit_loop_spec d k w :
  rng_ok (gen w) ->
  exists traces, List.length traces = k /\ Forall (commit_trace d) traces /\
    step_ok w (snd (repeatM k (commit_one d) w)) (List.concat traces).
Proof.
  revert w. induction k as [|k IH]; intros w Hg.
  - exists []. split; [reflexivity|split; [constructor|apply step_ok_refl]].
  - simpl. unfold bind. destruct (commit_one_spec d w Hg) as (tr & T & S1).
    destruct (commit_one d w) as [[] w1] eqn:E. simpl in S1.
    destruct (IH w1 (rng_ok_step _ _ _ S1 Hg)) as (trs & L & F & S2).
    exists (tr :: trs). split; [simpl; congruence|split; [constructor; assumption|]].
    exact (step_ok_trans _ _ _ _ _ S1 S2).
Qed.

(** One iteration of the day loop meets [day_spec]. *)
Lemma process_day_spec p d l w :
  Density.level_of_string (Params.commitLevel p) = Some l -> rng_ok (gen w) ->
  exists os, day_spec p d os /\ step_ok w (snd (process_day p d w)) os.
Proof.
  intros Hl Hg. unfold process_day.
  destruct (Params.includes (Params.skippedDays p) (weekday d)) eqn:Sk.
  - eexists. split; [now apply day_skipped|]. apply step_ok_say. discriminate.
  - unfold bind, on_gen, zoom.
    destruct (Density.numberOfCommitsToday_bounds _ l (gen w) Hg Hl) as [B Hn].
    destruct (Density.numberOfCommitsToday (Params.commitLevel p) (gen w)) as [n g1] eqn:E.
    simpl in B, Hn. subst g1.
    set (w1 := mkW (mkRng (draws (gen w)) (S (pos (gen w)))) (git w)).
    assert (S0 : step_ok w w1 []) by (unfold step_ok; simpl; rewrite !app_nil_r; auto).
    destruct (commit_loop_spec d (Z.to_nat n) w1 (rng_ok_step _ _ _ S0 Hg)) as (trs & L & F & S1).
    exists (List.concat trs). split.
    + apply (day_active p d l trs Sk Hl); [|exact F].
      rewrite L. assert (0 <= fst (Density.level_range l))%Z by (destruct l; simpl; lia). lia.
    + exact (step_ok_trans _ _ _ _ _ S0 S1).
Qed.

Lemma forM_days_spec p l days w :
  Density.level_of_string (Params.commitLevel p) = Some l -> rng_ok (gen w) ->
  exists outs, Forall2 (day_spec p) days outs /\
    step_ok w (snd (forM_ days (process_day p) w)) (List.concat outs).
Proof.
  intros Hl. revert w. induction days as [|d days IH]; intros w Hg.
  - exists []. split; [constructor | apply step_ok_refl].
  - simpl. unfold bind. destruct (process_day_spec p d l w Hl Hg) as (os & D & S1).
    destruct (process_day p d w) as [[] w1]. simpl in S1.
    destruct (IH w1 (rng_ok_step _ _ _ S1 Hg)) as (outs & F & S2).
    exists (os :: outs). split; [constructor; assumption|].
    exact (step_ok_trans _ _ _ _ _ S1 S2).
Qed.
Lemma push_step_spec w :
  exists res, (res = Pushed \/ exists e, res = PushFailed e) /\
    step_ok w (snd (on_git push_step w)) [res].
Proof.
  unfold on_git, zoom, push_step, step_ok. simpl.
  destruct (git_push (repo (git w))) as [r|e] eqn:P; simpl.
  - apply git_push_history in P. exists Pushed.
    split; [left; reflexivity|]. simpl. rewrite P, app_nil_r. auto.
  - exists (PushFailed e). split; [eauto|]. simpl. rewrite app_nil_r. auto.
Qed.

(** The synthesis stage: a banner, then for each date of the traversal
    exactly the lines [day_spec] allows (a skip notice, or a number of
    attempts in the level's range, each reported as committed or failed,
    never aborting), then the end banner and one push whose outcome is
    reported, then the final line.  The history gains exactly the commits
    reported as committed. *)
Theorem synthesize_spec p l w :
  Density.level_of_string (Params.commitLevel p) = Some l -> rng_ok (gen w) ->
  let y := Params.targetYear p in
  let lvl := Params.commitLevel p in
  let w' := snd (synthesize p w) in
  exists outs res,
    Forall2 (day_spec p) (traverse year_fuel (jan1 y) (dec31 y)) outs /\
    (res = Pushed \/ exists e, res = PushFailed e) /\
    out (git w') = out (git w) ++ [Generating lvl y] ++ List.concat outs ++
                   [Finished lvl y; Pushing; res; Complete] /\
    history (repo (git w')) = history (repo (git w)) ++ committed (List.concat outs).
Proof.
  intros Hl Hg. cbv zeta. unfold synthesize. rewrite !bind_const.
  pose proof (step_ok_say w (Generating (Params.commitLevel p) (Params.targetYear p))
                ltac:(discriminate)) as S1.
  set (w1 := snd (on_git (say _) w)) in *.
  rewrite day_loop_forM.
  destruct (forM_days_spec p l (traverse year_fuel (jan1 (Params.targetYear p))
              (dec31 (Params.targetYear p))) w1 Hl (rng_ok_step _ _ _ S1 Hg)) as (outs & F & S2).
  set (w2 := snd (forM_ _ _ w1)) in *.
  pose proof (step_ok_say w2 (Finished (Params.commitLevel p) (Params.targetYear p))
                ltac:(discriminate)) as S3.
  set (w3 := snd (on_git (say _) w2)) in *.
  pose proof (step_ok_say w3 Pushing ltac:(discriminate)) as S4.
  set (w4 := snd (on_git (say _) w3)) in *.
  destruct (push_step_spec w4) as (res & Hres & S5).
  set (w5 := snd (on_git push_step w4)) in *.
  pose proof (step_ok_say w5 Complete ltac:(discriminate)) as S6.
  pose proof (step_ok_trans _ _ _ _ _ S1 (step_ok_trans _ _ _ _ _ S2
    (step_ok_trans _ _ _ _ _ S3 (step_ok_trans _ _ _ _ _ S4
    (step_ok_trans _ _ _ _ _ S5 S6))))) as (O & Hh & _).
  exists outs, res. split; [exact F|split; [exact Hres|split]].
  - rewrite O. reflexivity.
  - rewrite Hh, !committed_app.
    destruct Hres as [->|[e ->]]; simpl; rewrite !app_nil_r; reflexivity.
Qed.

(** ** Invariants of the version-control state

    A property of the version-control state kept by every console line,
    every [makeCommitWithDate] and the push is kept by the whole synthesis
    (the generator is never consulted). *)

Section Preservation.
Variable Q : gstate R -> Prop.
Hypothesis Q_say : forall o, preserves Q (say o).
Hypothesis Q_commit : forall ts m, preserves Q (makeCommitWithDate ts m).
Hypothesis Q_push : preserves Q push_step.

Lemma on_git_preserves {A} (m : St (gstate R) A) :
  preserves Q m -> preserves (fun w => Q (git w)) (on_git m).
Proof.
  intros Hm w Hw. unfold on_git, zoom. specialize (Hm (git w) Hw).
  destruct (m (git w)). exact Hm.
Qed.

Lemma on_gen_preserves {A} (m : St rng A) : preserves (fun w => Q (git w)) (on_gen m).
Proof. apply preserves_zoom. intros w g Hw. exact Hw. Qed.

Lemma process_day_preserves p d : preserves (fun w => Q (git w)) (process_day p d).
Proof.
  unfold process_day, commit_loop, commit_one, commit_time.
  destruct (Params.includes _ _); [apply on_git_preserves, Q_say|].
  apply preserves_bind; [apply on_gen_preserves|]. intros n.
  apply preserves_repeatM.
  apply preserves_bind; [|intros ts; apply on_git_preserves, Q_commit].
  do 3 (apply preserves_bind; [apply on_gen_preserves|intros]). apply preserves_ret.
Qed.

Lemma synthesize_preserves p : preserves (fun w => Q (git w)) (synthesize p).
Proof.
  unfold synthesize.
  apply preserves_bind; [apply on_git_preserves, Q_say|]. intros _.
  apply preserves_bind.
  { intros w Hw. rewrite day_loop_forM.
    exact (preserves_forM_ _ _ _ (process_day_preserves p) w Hw). }
  intros _. repeat (apply preserves_bind; [apply on_git_preserves; auto|intros _]).
  apply on_git_preserves, Q_say.
Qed.

End Preservation.

(** ** The history is chronological *)

(** The day a commit's date string denotes, read back with [parse_iso]. *)
Definition commit_day (c : commit_info) : option date :=
  match parse_iso (list_ascii_of_string (snd c)) with
  | Some (m, _) => Some (mdate m)
  | None => None
  end.

Lemma committed_concat tss :
  committed (List.concat tss) = List.concat (map committed tss).
Proof. induction tss as [|ts tss IH]; simpl; [reflexivity|]. now rewrite committed_app, IH. Qed.

(** Every commit of one day's lines is dated on that day. *)
Lemma day_spec_commit_days p d os :
  day_spec p d os -> valid_date d = true -> (0 <= year d < 10000)%Z ->
  (Z.abs utc_offset < 6000)%Z ->
  Forall (fun c => commit_day c = Some d) (committed os).
Proof.
  intros D V Y O. destruct D as [_|l traces _ _ _ F]; [constructor|].
  rewrite committed_concat. apply Forall_concat, Forall_map.
  eapply Forall_impl; [|exact F]. intros tr (h & mi & s & B & T).
  set (ts := format utc_offset (mkMoment d h mi s)) in T.
  assert (Hc : commit_day (commitMessage, ts) = Some d).
  { unfold commit_day, ts, format. cbn [snd].
    rewrite list_ascii_of_string_of_list_ascii, parse_format_list
      by (apply printable_day; tauto). reflexivity. }
  destruct T as [->|[e ->]]; simpl; auto.
Qed.

(** Day by day in increasing order, the commits of each day carry that
    day: their days form a sorted list of visited days. *)
Lemma sorted_commit_days (Qd : date -> Prop) days outs :
  Forall2 (fun d os => Qd d -> Forall (fun c => commit_day c = Some d) (committed os)) days outs ->
  Forall Qd days ->
  StronglySorted (fun a b => (day_number a < day_number b)%Z) days ->
  exists ds, map commit_day (committed (List.concat outs)) = map Some ds /\
    Forall (fun x => In x days) ds /\
    StronglySorted (fun a b => (day_number a <= day_number b)%Z) ds.
Proof.
  induction 1 as [|d os days outs Hd _ IH]; intros Hq Hs; [exists []; repeat constructor|].
  apply Forall_cons_iff in Hq as [Qd0 Hq]. apply StronglySorted_inv in Hs as [Hs Hlt].
  destruct (IH Hq Hs) as (ds & Hm & Hf & Hds). specialize (Hd Qd0).
  rewrite Forall_forall in Hd, Hf, Hlt.
  exists (map (fun _ => d) (committed os) ++ ds). split; [|split].
  - simpl. rewrite committed_app, !map_app, Hm, map_map. f_equal.
    apply map_ext_in. intros c Hc. now apply Hd.
  - apply Forall_app. split; apply Forall_forall; intros x Hx.
    + apply in_map_iff in Hx as [? [<- _]]. left. reflexivity.
    + right. now apply Hf.
  - apply StronglySorted_app_intro; [apply StronglySorted_const; lia|exact Hds|].
    intros x y Hx Hy. apply in_map_iff in Hx as [? [<- _]].
    specialize (Hlt y (Hf y Hy)). lia.
Qed.

(** C26: The history the synthesis adds is chronological: reading each new
    commit's date back with [parse_iso] gives a day of the target year, and
    these days never decrease along the history (commits of one day may
    still be out of order by time of day, as the specification accepts). *)
Theorem synthesize_chronological p l w :
  Density.level_of_string (Params.commitLevel p) = Some l -> rng_ok (gen w) ->
  (0 <= Params.targetYear p < 10000)%Z -> (Z.abs utc_offset < 6000)%Z ->
  exists new ds,
    history (repo (git (snd (synthesize p w)))) = history (repo (git w)) ++ new /\
    map commit_day new = map Some ds /\
    Forall (fun d => valid_date d = true /\ year d = Params.targetYear p) ds /\
    StronglySorted (fun a b => (day_number a <= day_number b)%Z) ds.
Proof.
  intros Hl Hg Y O.
  destruct (synthesize_spec p l w Hl Hg) as (outs & res & F & _ & _ & Hh).
  set (y := Params.targetYear p) in *.
  set (days := traverse year_fuel (jan1 y) (dec31 y)) in *.
  assert (Hin : forall d, In d days <-> valid_date d = true /\ year d = y)
    by (intros d; apply traverse_year_In; unfold year_fuel; lia).
  destruct (sorted_commit_days (fun d => valid_date d = true /\ year d = y) days outs)
    as (ds & Hm & Hf & Hs).
  - eapply Forall2_impl; [|exact F]. intros d os D [V Yd].
    apply (day_spec_commit_days p); [exact D | exact V | rewrite Yd; exact Y | exact O].
  - apply Forall_forall. intros d. apply Hin.
  - apply traverse_year_sorted. unfold year_fuel. lia.
  - exists (committed (List.concat outs)), ds. split; [exact Hh|]. split; [exact Hm|].
    split; [|exact Hs]. eapply Forall_impl; [|exact Hf]. intros d. apply Hin.
Qed.

(** ** Counting the console lines *)

Definition is_attempt (o : output) : bool :=
  match o with Attempting _ _ => true | _ => false end.
Definition is_failure (o : output) : bool :=
  match o with CommitFailed _ _ _ => true | _ => false end.

Definition count_attempts (os : list output) : nat := List.length (filter is_attempt os).
Definition count_failed (os : list output) : nat := List.length (filter is_failure os).

Lemma counts_app os1 os2 :
  count_attempts (os1 ++ os2) = (count_attempts os1 + count_attempts os2)%nat /\
  count_failed (os1 ++ os2) = (count_failed os1 + count_failed os2)%nat.
Proof. unfold count_attempts, count_failed. now rewrite !filter_app, !length_app. Qed.

Lemma traces_counts d traces :
  Forall (commit_trace d) traces ->
  count_attempts (List.concat traces) = List.length traces /\
  (List.length (committed (List.concat traces)) + count_failed (List.concat traces)
   = List.length traces)%nat.
Proof.
  induction 1 as [|tr trs T _ [IH1 IH2]]; [split; reflexivity|]. simpl.
  destruct (counts_app tr (List.concat trs)) as [-> ->].
  rewrite committed_app, length_app.
  destruct T as (h & mi & s & _ & [->|[e ->]]); simpl in *; lia.
Qed.

(** Per day: every attempt is reported once as committed or failed; a
    skipped day has no attempt; an active day has a number of attempts in
    the level's range. *)
Lemma day_spec_counts p d os :
  day_spec p d os ->
  (List.length (committed os) + count_failed os = count_attempts os)%nat /\
  (Params.includes (Params.skippedDays p) (weekday d) = true -> count_attempts os = 0%nat) /\
  (forall l, Density.level_of_string (Params.commitLevel p) = Some l ->
   Params.includes (Params.skippedDays p) (weekday d) = false ->
   fst (Density.level_range l) <= Z.of_nat (count_attempts os) <= snd (Density.level_range l))%Z.
Proof.
  destruct 1 as [Sk|l0 traces Sk Hl B F].
  - split; [reflexivity|split; [reflexivity|intros l _ Hf; congruence]].
  - destruct (traces_counts d traces F) as [C1 C2]. rewrite C1.
    split; [lia|split; [congruence|]].
    intros l' Hl' _. rewrite Hl in Hl'. injection Hl' as <-. exact B.
Qed.

Definition active (p : Params.params) (d : date) : bool :=
  negb (Params.includes (Params.skippedDays p) (weekday d)).

(** Over all processed days: the number of attempts lies between the
    level's bounds times the number of non-skipped days, and every attempt
    ends in exactly one of [Committed] or [CommitFailed]. *)
Lemma days_counts p l days outs :
  Density.level_of_string (Params.commitLevel p) = Some l ->
  Forall2 (day_spec p) days outs ->
  let A := Z.of_nat (List.length (filter (active p) days)) in
  (fst (Density.level_range l) * A <= Z.of_nat (count_attempts (List.concat outs))
     <= snd (Density.level_range l) * A)%Z /\
  (List.length (committed (List.concat outs)) + count_failed (List.concat outs)
   = count_attempts (List.concat outs))%nat.
Proof.
  intros Hl. induction 1 as [|d os days outs D _ [IH1 IH2]];
    [split; [destruct l; cbn; lia | reflexivity]|].
  simpl. destruct (day_spec_counts p d os D) as (C1 & C2 & C3).
  destruct (counts_app os (List.concat outs)) as [-> ->].
  rewrite committed_app, length_app.
  destruct (active p d) eqn:A; unfold active in A; simpl;
    destruct (Params.includes (Params.skippedDays p) (weekday d)) eqn:Sk; try discriminate.
  - specialize (C3 l Hl eq_refl). split; lia.
  - pose proof (C2 eq_refl). split; lia.
Qed.

(** ** The whole script *)

(** C1: [generateHistory] end to end: once the prompts have produced their
    parameters, the day loop visits exactly the valid dates of the target
    year (a year of [[2008, currentYear]]) in order, each day's console
    lines meet [day_spec], the push runs once after the last day, and the
    history gains exactly the commits reported as committed. *)
Theorem generateHistory_correct inp p rest ws w :
  rng_ok (gen w) -> Params.collect_params inp = (Some p, rest, ws) ->
  let y := Params.targetYear p in
  let days := traverse year_fuel (jan1 y) (dec31 y) in
  let w' := snd (generateHistory inp w) in
  (2008 <= y)%Z /\
  (forall d, In d days <-> valid_date d = true /\ year d = y) /\
  exists outs res,
    Forall2 (day_spec p) days outs /\
    (res = Pushed \/ exists e, res = PushFailed e) /\
    out (git w') = out (git w) ++ [Options; Generating (Params.commitLevel p) y] ++
                   List.concat outs ++ [Finished (Params.commitLevel p) y; Pushing; res; Complete] /\
    history (repo (git w')) = history (repo (git w)) ++ committed (List.concat outs).
Proof.
  intros Hg Hc. cbv zeta.
  pose proof Hc as Hc'. unfold Params.collect_params in Hc'.
  destruct (Params.ask_year inp) as [[[y|] r1] w1] eqn:AY; [|discriminate].
  destruct (Params.ask_level r1) as [[[lvl|] r2] w2] eqn:AL; [|discriminate].
  destruct r2 as [|[sk c] r3]; [discriminate|]. injection Hc' as Hp _ _.
  assert (Ey : Params.targetYear p = y) by now rewrite <- Hp.
  assert (El : Params.commitLevel p = lvl) by now rewrite <- Hp.
  apply Params.ask_year_sound in AY as (pre & yi & cy & _ & _ & Hy & _).
  apply Params.ask_level_sound in AL as [Hlv _].
  apply Params.level_ok_In, Density.level_of_string_ok in Hlv as [l Hl].
  rewrite <- El in Hl. rewrite <- Ey in Hy.
  split; [lia|]. split; [intros d; apply traverse_year_In; unfold year_fuel; lia|].
  unfold generateHistory. rewrite bind_const, Hc.
  pose proof (step_ok_say w Options ltac:(discriminate)) as S0.
  destruct (synthesize_spec p l _ Hl (rng_ok_step _ _ _ S0 Hg)) as (outs & res & F & Hr & O & Hh).
  destruct S0 as (O0 & H0 & _).
  exists outs, res. split; [exact F|split; [exact Hr|split]].
  - rewrite O, O0, <- app_assoc. reflexivity.
  - rewrite Hh, H0. simpl. now rewrite app_nil_r.
Qed.

(** C2: Counting form: the attempts lie between the level's bounds times the
    number of non-skipped days of the year, and the history grows by the
    attempts minus the failures: a failed commit never stops the run. *)
Theorem synthesize_counts p l w :
  Density.level_of_string (Params.commitLevel p) = Some l -> rng_ok (gen w) ->
  let y := Params.targetYear p in
  let A := Z.of_nat (List.length (filter (active p) (traverse year_fuel (jan1 y) (dec31 y)))) in
  let w' := snd (synthesize p w) in
  exists new, out (git w') = out (git w) ++ new /\
    (fst (Density.level_range l) * A <= Z.of_nat (count_attempts new)
       <= snd (Density.level_range l) * A)%Z /\
    (List.length (history (repo (git w'))) + count_failed new
     = List.length (history (repo (git w))) + count_attempts new)%nat.
Proof.
  intros Hl Hg. cbv zeta.
  destruct (synthesize_spec p l w Hl Hg) as (outs & res & F & Hres & O & Hh).
  destruct (days_counts p l _ outs Hl F) as [B E].
  eexists. split; [exact O|].
  assert (Hr : count_attempts [res] = 0%nat /\ count_failed [res] = 0%nat)
    by (destruct Hres as [->|[e ->]]; split; reflexivity).
  repeat match goal with
  | |- context [count_attempts (?a ++ ?b)] => rewrite (proj1 (counts_app a b))
  | |- context [count_failed (?a ++ ?b)] => rewrite (proj2 (counts_app a b))
  end.
  change [Finished (Params.commitLevel p) (Params.targetYear p); Pushing; res; Complete]
    with ([Finished (Params.commitLevel p) (Params.targetYear p); Pushing] ++ [res] ++ [Complete]).
  rewrite Hh, length_app.
  repeat match goal with
  | |- context [count_attempts (?a ++ ?b)] => rewrite (proj1 (counts_app a b))
  | |- context [count_failed (?a ++ ?b)] => rewrite (proj2 (counts_app a b))
  end.
  destruct Hr as [-> ->].
  set (a := count_attempts (List.concat outs)) in *.
  set (f := count_failed (List.concat outs)) in *.
  set (A := Z.of_nat (List.length (filter (active p) _))) in *.
  set (c := List.length (committed (List.concat outs))) in *.
  cbn [count_attempts count_failed filter is_attempt is_failure List.length].
  split; lia.
Qed.

Lemma day_spec_skipped p d os :
  day_spec p d os -> Params.includes (Params.skippedDays p) (weekday d) = true ->
  os = [Skipping (day_string d) (weekday d)].
Proof. destruct 1 as [Sk|l traces Sk]; intros E; [reflexivity | congruence]. Qed.

(** C5: A skipped weekday gets its skip notice and nothing else: no commit
    attempt is made on it. *)
Theorem synthesize_skipped_days p l w :
  Density.level_of_string (Params.commitLevel p) = Some l -> rng_ok (gen w) ->
  let y := Params.targetYear p in
  exists outs res,
    out (git (snd (synthesize p w))) = out (git w) ++ [Generating (Params.commitLevel p) y] ++
      List.concat outs ++ [Finished (Params.commitLevel p) y; Pushing; res; Complete] /\
    Forall2 (fun d os => Params.includes (Params.skippedDays p) (weekday d) = true ->
                         os = [Skipping (day_string d) (weekday d)])
            (traverse year_fuel (jan1 y) (dec31 y)) outs.
Proof.
  intros Hl Hg. cbv zeta.
  destruct (synthesize_spec p l w Hl Hg) as (outs & res & F & _ & O & _).
  exists outs, res. split; [exact O|].
  eapply Forall2_impl; [|exact F]. intros d os D. now apply day_spec_skipped.
Qed.

End Synthesis.

(** ** Concrete runs and witnesses

    A generator whose draws are all 0 and an empty model repository. *)

Import Repo.

Definition rng_zero : rng := mkRng (fun _ => 0%Z) 0.

Lemma rng_zero_ok : rng_ok rng_zero.
Proof. intros i. unfold rng_zero, resolution. simpl. lia. Qed.

Definition world0 : world store := mkW rng_zero (mkG initial_store []).

Definition answers_2023 : list Params.line :=
  [("2023", 2026); ("low", 2026); ("0,6", 2026)]%string%Z.

Definition params_weekends : Params.params :=
  Params.mkParams 2023 "low" [JsString.Int 0; JsString.Int 6].

Lemma generateHistory_correct_witness :
  rng_ok (gen world0) /\
  Params.collect_params answers_2023 = (Some params_weekends, [], []) /\
  (2008 <= Params.targetYear params_weekends)%Z.
Proof.
  split; [exact rng_zero_ok|]. split; [reflexivity|].
  exact (proj1 (generateHistory_correct 60 answers_2023 params_weekends [] [] world0
                  rng_zero_ok eq_refl)).
Defined.

Lemma synthesize_counts_witness :
  Density.level_of_string (Params.commitLevel params_weekends) = Some Density.Low /\
  rng_ok (gen world0) /\
  exists new, out (git (snd (synthesize 60 params_weekends world0))) = out (git world0) ++ new.
Proof.
  split; [reflexivity|]. split; [exact rng_zero_ok|].
  destruct (synthesize_counts 60 params_weekends Density.Low world0 eq_refl rng_zero_ok)
    as (new & O & _). exists new. exact O.
Defined.

Lemma synthesize_skipped_days_witness :
  Density.level_of_string (Params.commitLevel params_weekends) = Some Density.Low /\
  rng_ok (gen world0) /\
  exists outs res,
    out (git (snd (synthesize 60 params_weekends world0))) = out (git world0) ++
      [Generating "low" 2023] ++ List.concat outs ++ [Finished "low" 2023; Pushing; res; Complete].
Proof.
  split; [reflexivity|]. split; [exact rng_zero_ok|].
  destruct (synthesize_skipped_days 60 params_weekends Density.Low world0 eq_refl rng_zero_ok)
    as (outs & res & O & _). exists outs, res. exact O.
Defined.

Lemma commit_time_on_day_witness :
  valid_date (mkDate 2023 3 14) = true /\ (0 <= year (mkDate 2023 3 14) < 10000)%Z /\
  (Z.abs 60 < 6000)%Z /\ rng_ok (gen world0) /\
  exists h mi s, parse_iso (list_ascii_of_string (fst (commit_time 60 (mkDate 2023 3 14) world0)))
                 = Some (mkMoment (mkDate 2023 3 14) h mi s, 60%Z).
Proof.
  split; [reflexivity|]. split; [simpl; lia|]. split; [simpl; lia|]. split; [exact rng_zero_ok|].
  destruct (commit_time_on_day 60 (mkDate 2023 3 14) world0 eq_refl ltac:(simpl; lia)
              ltac:(simpl; lia) rng_zero_ok) as (h & mi & s & _ & E).
  exists h, mi, s. exact E.
Defined.

Lemma synthesize_chronological_witness :
  Density.level_of_string (Params.commitLevel params_weekends) = Some Density.Low /\
  rng_ok (gen world0) /\ (0 <= Params.targetYear params_weekends < 10000)%Z /\
  (Z.abs 60 < 6000)%Z /\
  exists new, history (repo (git (snd (synthesize 60 params_weekends world0))))
              = history (repo (git world0)) ++ new.
Proof.
  split; [reflexivity|]. split; [exact rng_zero_ok|]. split; [simpl; lia|]. split; [simpl; lia|].
  destruct (synthesize_chronological 60 params_weekends Density.Low world0 eq_refl rng_zero_ok
              ltac:(simpl; lia) ltac:(simpl; lia)) as (new & ds & E & _).
  exists new. exact E.
Defined.

End History.
