(* ===== verification/Machine.v ===== *)
(** * The day loop as a small-step machine

    [src/index.js] lines 81-116, one statement per step: the [while]
    condition of line 81, the skip branch of lines 85-89 with its
    [continue], the [switch] of lines 91-105 that draws the day's count,
    one iteration of the [for] loop of lines 107-114, and the
    [currentDate.add(1, 'day')] of line 115 when the [for] loop ends.  A
    configuration is a program point, the cursor [currentDate] and the
    [world] of [History].  The end date is [endDate] of line 76.

    The theorems show that no run from a valid cursor is infinite (the
    [while] loop and every [for] loop terminate), and an invariant of every
    configuration reachable from January 1, proved by rule induction. *)

From Stdlib Require Import ZArith List String Bool Lia.
From S2P Require Import Prelude Calendar Random Params Density Git History.
Import ListNotations.
Import Calendar Random Git History.
Open Scope gh_scope.

Module Machine.

(** Program points: the [while] test, the [for] loop with its counter
    [i] and bound [numberOfCommitsToday], and the exit of the loop. *)
Inductive pc : Type :=
| LoopHead
| ForLoop (i n : Z)
| LoopExit.

Section Machine.
Context {R : Type} `{Backend R}.
Variable utc_offset : Z.
Variable p : Params.params.

Record cfg : Type := mkCfg { point : pc; cursor : date; wld : world R }.

(** [const endDate = moment(`${targetYear}-12-31T23:59:59`)] *)
Definition endDate : date := dec31 (Params.targetYear p).

Inductive step : cfg -> cfg -> Prop :=
(** line 81: the condition fails, the loop ends *)
| step_exit cur w :
    is_same_or_before_day cur endDate = false ->
    step (mkCfg LoopHead cur w) (mkCfg LoopExit cur w)
(** lines 85-88: a skipped weekday is logged, the date advances, [continue] *)
| step_skip cur w :
    is_same_or_before_day cur endDate = true ->
    Params.includes (Params.skippedDays p) (weekday cur) = true ->
    step (mkCfg LoopHead cur w)
         (mkCfg LoopHead (next_day cur) (snd (on_git (say (Skipping (day_string cur) (weekday cur))) w)))
(** lines 91-107: the day's count is drawn and the [for] loop starts at 0 *)
| step_draw cur w :
    is_same_or_before_day cur endDate = true ->
    Params.includes (Params.skippedDays p) (weekday cur) = false ->
    step (mkCfg LoopHead cur w)
         (mkCfg (ForLoop 0 (fst (on_gen (Density.numberOfCommitsToday (Params.commitLevel p)) w)))
                cur (snd (on_gen (Density.numberOfCommitsToday (Params.commitLevel p)) w)))
(** lines 108-113: one commit, then [i++] *)
| step_commit i n cur w :
    (i < n)%Z ->
    step (mkCfg (ForLoop i n) cur w)
         (mkCfg (ForLoop (i + 1) n) cur (snd (commit_one utc_offset cur w)))
(** line 115: the [for] loop is done, the date advances *)
| step_next i n cur w :
    (n <= i)%Z ->
    step (mkCfg (ForLoop i n) cur w) (mkCfg LoopHead (next_day cur) w).

#[local] Hint Constructors step : gh.

(** Days left before the loop condition fails. *)
Definition days_left (cur : date) : nat :=
  Z.to_nat (day_number endDate - day_number cur + 1).

Lemma days_left_next cur k :
  valid_date cur = true -> days_left cur = S k -> days_left (next_day cur) = k.
Proof. unfold days_left. intros V E. rewrite day_number_next by exact V. lia. Qed.

Lemma days_left_pos cur :
  is_same_or_before_day cur endDate = true -> exists k, days_left cur = S k.
Proof.
  unfold is_same_or_before_day, days_left. rewrite Z.leb_le. intros Hle.
  exists (Z.to_nat (day_number endDate - day_number cur)). lia.
Qed.

Lemma days_left_zero cur :
  days_left cur = O -> is_same_or_before_day cur endDate = false.
Proof. unfold is_same_or_before_day, days_left. intros E. apply Z.leb_gt. lia. Qed.

(** ** Termination *)

Lemma acc_exit cur w : Acc (fun c2 c1 => step c1 c2) (mkCfg LoopExit cur w).
Proof. constructor. intros c H1. inversion H1. Qed.

Lemma acc_for m i n cur w :
  Z.to_nat (n - i) = m ->
  (forall w', Acc (fun c2 c1 => step c1 c2) (mkCfg LoopHead (next_day cur) w')) ->
  Acc (fun c2 c1 => step c1 c2) (mkCfg (ForLoop i n) cur w).
Proof.
  revert i w. induction m as [|m IH]; intros i w Hm Hn;
    constructor; intros c H1; inversion H1; subst; auto.
  - lia.
  - apply IH; [lia | exact Hn].
Qed.

Lemma acc_head k cur w :
  valid_date cur = true -> days_left cur = k ->
  Acc (fun c2 c1 => step c1 c2) (mkCfg LoopHead cur w).
Proof.
  revert cur w. induction k as [|k IH]; intros cur w V Hk;
    constructor; intros c H1; inversion H1; subst; try apply acc_exit.
  - pose proof (days_left_zero cur Hk). congruence.
  - pose proof (days_left_zero cur Hk). congruence.
  - apply IH; [now apply next_day_valid | now apply days_left_next].
  - eapply acc_for; [reflexivity|]. intros w'.
    apply IH; [now apply next_day_valid | now apply days_left_next].
Qed.

(** C22: Termination: from every configuration whose cursor is a valid
    date, every run of the machine is finite (the converse of the step
    relation is well founded there): each [for] loop runs out of its
    count, and each day brings the cursor closer to [endDate]. *)
Theorem machine_terminates c :
  valid_date (cursor c) = true -> Acc (fun c2 c1 => step c1 c2) c.
Proof.
  destruct c as [[|i n|] cur w]; cbn [cursor]; intros V.
  - now apply (acc_head (days_left cur)).
  - eapply acc_for; [reflexivity|]. intros w'.
    apply (acc_head (days_left (next_day cur))); [now apply next_day_valid | reflexivity].
  - apply acc_exit.
Qed.

(** ** Rule induction: the invariant *)

Section Invariant.
Context `{!BackendLaws R}.
Variable l : Density.level.
Hypothesis Hlevel : Density.level_of_string (Params.commitLevel p) = Some l.
Variable w0 : world R.

(** Every reached configuration has a valid cursor between January 1 and
    the day after the end date, a valid generator, a world that follows
    [w0] by the lines printed so far ([History.step_ok]: the history holds
    exactly the commits reported), and at a [for] loop a counter within
    the day's count and a count within the level's range. *)
Definition inv (c : cfg) : Prop :=
  valid_date (cursor c) = true /\
  (day_number (jan1 (Params.targetYear p)) <= day_number (cursor c) <= day_number endDate + 1)%Z /\
  rng_ok (gen (wld c)) /\
  (exists new, step_ok w0 (wld c) new) /\
  match point c with
  | LoopHead => True
  | ForLoop i n =>
      (0 <= i <= n /\ fst (Density.level_range l) <= n <= snd (Density.level_range l))%Z /\
      (day_number (cursor c) <= day_number endDate)%Z
  | LoopExit => day_number (cursor c) = (day_number endDate + 1)%Z
  end.

Lemma on_gen_step_ok (m : St rng Z) w g' :
  snd (m (gen w)) = mkRng (draws (gen w)) g' ->
  step_ok w (snd (on_gen m w)) [].
Proof.
  intros E. unfold step_ok, on_gen, zoom. destruct (m (gen w)) as [a g]. simpl in *.
  subst g. simpl. now rewrite !app_nil_r.
Qed.

Lemma inv_step c c' : inv c -> step c c' -> inv c'.
Proof.
  intros (V & B & G & [new S] & P) Hs.
  destruct Hs as [cur w E|cur w E Sk|cur w E Sk|i n cur w Hi|i n cur w Hi];
    unfold inv; cbn [point cursor wld] in *; try unfold is_same_or_before_day in E.
  - apply Z.leb_gt in E. split; [exact V|]. split; [exact B|].
    split; [exact G|]. split; [eauto|lia].
  - apply Z.leb_le in E.
    pose proof (step_ok_say w (Skipping (day_string cur) (weekday cur)) ltac:(discriminate)) as S1.
    split; [now apply next_day_valid|]. rewrite day_number_next by exact V.
    split; [lia|]. split; [eapply rng_ok_step; eauto|].
    split; [eexists; eapply step_ok_trans; eauto|exact I].
  - apply Z.leb_le in E.
    destruct (Density.numberOfCommitsToday_bounds _ l (gen w) G Hlevel) as [Bn Hg].
    assert (S1 : step_ok w (snd (on_gen (Density.numberOfCommitsToday (Params.commitLevel p)) w)) [])
      by (eapply on_gen_step_ok; exact Hg).
    split; [exact V|]. split; [exact B|]. split; [eapply rng_ok_step; eauto|].
    split; [eexists; eapply step_ok_trans; eauto|].
    unfold on_gen, zoom in *. destruct (Density.numberOfCommitsToday _ (gen w)) as [n g].
    cbn [fst snd] in *. assert (0 <= fst (Density.level_range l))%Z by (destruct l; simpl; lia).
    repeat split; lia.
  - destruct (commit_one_spec utc_offset cur w G) as (tr & _ & S1).
    split; [exact V|]. split; [exact B|]. split; [eapply rng_ok_step; eauto|].
    split; [eexists; eapply step_ok_trans; eauto|]. lia.
  - split; [now apply next_day_valid|]. rewrite day_number_next by exact V.
    split; [lia|]. split; [exact G|]. split; [eauto|exact I].
Qed.

(** C23: Every configuration reached from the [while] test on January 1
    of the target year satisfies [inv]: in particular the history always
    holds exactly the commits the console reported, the cursor stays
    within the year (or on the day after it at the exit), and each [for]
    loop counts within the level's range. *)
Theorem reachable_inv c :
  rng_ok (gen w0) ->
  star step (mkCfg LoopHead (jan1 (Params.targetYear p)) w0) c -> inv c.
Proof.
  intros G Hr. refine (star_inv step inv _ c inv_step _ Hr).
  unfold inv, endDate. cbn [point cursor wld].
  rewrite day_number_dec31, day_number_jan1.
  pose proof (year_length_bounds (Params.targetYear p)).
  split; [reflexivity|]. split; [lia|]. split; [exact G|].
  split; [exists []; apply step_ok_refl|exact I].
Qed.

End Invariant.

End Machine.

(** ** Witnesses: the model repository, year 2023, weekends skipped *)

Import Repo.

Definition cfg0 : @cfg Repo.store := mkCfg LoopHead (jan1 2023) world0.

Lemma machine_terminates_witness :
  valid_date (cursor cfg0) = true /\ Acc (fun c2 c1 => step 60 params_weekends c1 c2) cfg0.
Proof. split; [reflexivity | exact (machine_terminates 60 params_weekends cfg0 eq_refl)]. Defined.

Lemma reachable_inv_witness :
  Density.level_of_string (Params.commitLevel params_weekends) = Some Density.Low /\
  rng_ok (gen world0) /\ inv params_weekends Density.Low world0 cfg0.
Proof.
  split; [reflexivity|]. split; [exact rng_zero_ok|].
  exact (reachable_inv 60 params_weekends Density.Low eq_refl world0 cfg0 rng_zero_ok
           (star_refl _ cfg0)).
Defined.

End Machine.
