(* ===== verification/RepoRuns.v ===== *)
(** * Runs of the script against the model repository

    [History] is proved against any collaborator meeting [Git.BackendLaws].
    This file runs [History.synthesize] against the model repository
    [Git.Repo.store] and shows the two failure policies of the script
    (section 7 of the specification):
    - when the marker file cannot be written ([disk_ok] false), every
      commit attempt of [makeCommitWithDate] (lines 14-27) fails, is logged,
      and the loop still runs over every day; the history is unchanged;
    - the single [git.push] of lines 120-124 either transmits every local
      commit, or, when the remote is unreachable, is logged as failed,
      leaves the remote as it was, and the run still prints its final line.

    The proofs carry invariants of the repository through the loops with
    [History.synthesize_preserves] and [History.process_day_preserves]. *)

From Stdlib Require Import ZArith List String Bool Lia.
From S2P Require Import Prelude Calendar Random Params Density Git History.
From stdpp Require Import base gmap.
Import ListNotations.
Import Calendar Random Git Git.Repo History.
Open Scope gh_scope.

Module RepoRuns.

(** ** What the repository operations keep *)

(** The fields no local operation touches: the disk, the remote and what
    it holds. *)
Definition fixed (r : store) : bool * bool * list commit_info :=
  (disk_ok r, remote_ok r, upstream r).

Lemma makeCommit_fixed d m g :
  fixed (repo (snd (makeCommitWithDate d m g))) = fixed (repo g).
Proof.
  unfold makeCommitWithDate, say, bind. simpl. unfold write.
  destruct (disk_ok (repo g)) eqn:Dk; simpl; [|reflexivity].
  rewrite lookup_insert_eq. simpl. unfold commit, fixed.
  case_decide; simpl; congruence.
Qed.

Lemma say_repo o (g : gstate store) : repo (snd (say o g)) = repo g.
Proof. reflexivity. Qed.

Lemma say_out o (g : gstate store) : out (snd (say o g)) = out g ++ [o].
Proof. reflexivity. Qed.

(** With the disk down the marker cannot be written: the repository is
    untouched and the attempt is reported as failed. *)
Lemma makeCommit_disk_down d m g :
  disk_ok (repo g) = false ->
  snd (makeCommitWithDate d m g)
  = mkG (repo g) (out g ++ [Attempting m d; CommitFailed m d WriteError]).
Proof.
  intros Dk. unfold makeCommitWithDate, say, bind. simpl. unfold write. simpl.
  rewrite Dk. simpl. now rewrite <- app_assoc.
Qed.

(** The console only grows. *)
Definition out_extends (o0 : list output) (g : gstate store) : Prop :=
  exists new, out g = o0 ++ new.

Lemma out_extends_app o0 g l :
  out_extends o0 g -> out_extends o0 (mkG (repo g) (out g ++ l)).
Proof. intros [new E]. exists (new ++ l). simpl. rewrite E, app_assoc. reflexivity. Qed.

(** ** The disk is down *)

Section DiskDown.
Variable utc_offset : Z.
Definition disk_down (c0 : list commit_info) (g : gstate store) : Prop :=
  disk_ok (repo g) = false /\ commits (repo g) = c0.

Lemma disk_down_say c0 o : preserves (disk_down c0) (say o).
Proof. intros g H. exact H. Qed.

Lemma disk_down_commit c0 ts m : preserves (disk_down c0) (makeCommitWithDate ts m).
Proof. intros g [Dk Hc]. rewrite makeCommit_disk_down by exact Dk. split; assumption. Qed.

Lemma disk_down_push c0 : preserves (disk_down c0) push_step.
Proof.
  intros g [Dk Hc]. unfold push_step. simpl. unfold push.
  destruct (remote_ok (repo g)); split; assumption.
Qed.

(** C27: When the marker file cannot be written, every commit attempt of
    the run fails and is logged, but the run is not aborted: every day of
    the year is still processed (the per-day lines meet [day_spec]), the
    push is attempted and the final line printed, and the history is
    exactly what it was. *)
Theorem synthesize_disk_failure p l w :
  Density.level_of_string (Params.commitLevel p) = Some l -> rng_ok (gen w) ->
  disk_ok (repo (git w)) = false ->
  let y := Params.targetYear p in
  let w' := snd (synthesize utc_offset p w) in
  commits (repo (git w')) = commits (repo (git w)) /\
  exists outs res,
    Forall2 (day_spec utc_offset p) (traverse year_fuel (jan1 y) (dec31 y)) outs /\
    out (git w') = out (git w) ++ [Generating (Params.commitLevel p) y] ++ List.concat outs ++
                   [Finished (Params.commitLevel p) y; Pushing; res; Complete] /\
    committed (List.concat outs) = [] /\
    count_failed (List.concat outs) = count_attempts (List.concat outs).
Proof.
  intros Hl Hg Dk. cbv zeta.
  assert (Hd : disk_down (commits (repo (git w))) (snd (synthesize utc_offset p w)).(git))
    by (apply (synthesize_preserves utc_offset _ (disk_down_say _) (disk_down_commit _)
                 (disk_down_push _) p w); split; [exact Dk | reflexivity]).
  destruct Hd as [_ Hc]. split; [exact Hc|].
  destruct (synthesize_spec utc_offset p l w Hl Hg) as (outs & res & F & _ & O & Hh).
  destruct (days_counts utc_offset p l _ outs Hl F) as [_ E].
  simpl in Hh. rewrite Hc in Hh.
  assert (Hn : committed (List.concat outs) = []).
  { apply (f_equal (@List.length _)) in Hh. rewrite length_app in Hh.
    destruct (committed (List.concat outs)); [reflexivity | simpl in Hh; lia]. }
  exists outs, res. split; [exact F|]. split; [exact O|]. split; [exact Hn|].
  rewrite Hn in E. simpl in E. exact E.
Qed.

End DiskDown.

(** ** The push *)

Section Push.
Variable utc_offset : Z.

(** During the day loop the remote is neither reached nor changed, and the
    console only grows. *)
Definition remote_kept (b : bool) (u : list commit_info) (o0 : list output)
    (g : gstate store) : Prop :=
  remote_ok (repo g) = b /\ upstream (repo g) = u /\ out_extends o0 g.

Lemma remote_kept_say b u o0 o : preserves (remote_kept b u o0) (say o).
Proof. intros g (Hb & Hu & Ho). split; [exact Hb|]. split; [exact Hu|]. now apply out_extends_app. Qed.

Lemma remote_kept_commit b u o0 ts m : preserves (remote_kept b u o0) (makeCommitWithDate ts m).
Proof.
  intros g (Hb & Hu & [new Ho]). pose proof (makeCommit_fixed ts m g) as F.
  unfold fixed in F. injection F as _ Fb Fu.
  destruct (makeCommitWithDate_spec ts m g) as (o & Hout & _).
  split; [congruence|]. split; [congruence|].
  exists (new ++ [Attempting m ts; o]). rewrite Hout, Ho, app_assoc. reflexivity.
Qed.

(** C28: The single push at the end: when the remote is reachable, the
    run ends with [Pushing], [Pushed] and the final line, and the remote
    then holds every local commit; when it is not, the failure is logged
    with [PushError], the run still prints its final line, and the remote
    is as it was (local commits are kept, nothing is transmitted). *)
Theorem synthesize_push_outcome p w :
  let w' := snd (synthesize utc_offset p w) in
  exists new,
    if remote_ok (repo (git w)) then
      out (git w') = out (git w) ++ new ++ [Pushing; Pushed; Complete] /\
      upstream (repo (git w')) = commits (repo (git w'))
    else
      out (git w') = out (git w) ++ new ++ [Pushing; PushFailed PushError; Complete] /\
      upstream (repo (git w')) = upstream (repo (git w)).
Proof.
  cbv zeta. unfold synthesize. rewrite !bind_const, day_loop_forM.
  set (w1 := snd (on_git (say _) w)).
  set (w2 := snd (forM_ _ _ w1)).
  assert (Hq : remote_kept (remote_ok (repo (git w))) (upstream (repo (git w))) (out (git w)) (git w2)).
  { apply (preserves_forM_ (fun w => remote_kept _ _ _ (git w))).
    - intros d. apply (process_day_preserves utc_offset); intros.
      + apply remote_kept_say.
      + apply remote_kept_commit.
    - apply remote_kept_say. split; [reflexivity|]. split; [reflexivity|]. exists []. now rewrite app_nil_r. }
  destruct Hq as (Hb & Hu & [new Ho]).
  exists (new ++ [Finished (Params.commitLevel p) (Params.targetYear p)]).
  unfold on_git, zoom, push_step, say. simpl. unfold push. rewrite Hb.
  destruct (remote_ok (repo (git w))); simpl; rewrite Ho, <- !app_assoc; auto.
Qed.

End Push.

(** ** Witnesses *)

(** An empty repository whose working tree cannot be written. *)
Definition store_disk_down : store := mkStore ∅ ∅ ∅ [] [] false true.

Definition world_disk_down : world store := mkW rng_zero (mkG store_disk_down []).

Lemma synthesize_disk_failure_witness :
  Density.level_of_string (Params.commitLevel params_weekends) = Some Density.Low /\
  rng_ok (gen world_disk_down) /\ disk_ok (repo (git world_disk_down)) = false /\
  commits (repo (git (snd (synthesize 60 params_weekends world_disk_down))))
  = commits (repo (git world_disk_down)).
Proof.
  split; [reflexivity|]. split; [exact rng_zero_ok|]. split; [reflexivity|].
  exact (proj1 (synthesize_disk_failure 60 params_weekends Density.Low world_disk_down
                  eq_refl rng_zero_ok eq_refl)).
Defined.

End RepoRuns.
